(** * Verilog AI agent: analysers and pipeline orchestrator

    A shallow embedding of the pattern-based analysers of the repository
    (design_verifier.py, design_optimizer.py, doc_generator.py), of the
    orchestrator (verilog_ai_agent.py) and of the HTTP handlers that wrap
    it (mcp_verilog_agent.py), followed by the properties of the
    specification that concern them.

    Modelling conventions.
    - Python [str] values are [string]s.  The character classes of the
      regular expressions ([\s], [\w], [\d]) are those of Python's [re] on
      the ASCII range; the development is about ASCII text.
    - Python [float] values are exact rationals ([Q]): the analysers only
      multiply, divide and compare small counts.
    - Python dictionaries whose iteration order is observable
      ([results.values()], the report) are association lists in insertion
      order; the file system is a finite map from path names to nodes.
    - Code that raises returns a [result]; code that also touches the
      file system or the logger runs in the state-and-error monad [M]. *)

From Stdlib Require Import String Ascii List ZArith QArith Qminmax Bool Lia.
From Stdlib Require Import DecimalString.
From stdpp Require Import gmap strings.

Import ListNotations.
Local Open Scope string_scope.
Local Open Scope list_scope.

(* ===================================================================== *)
(** ** Python built-ins used by the analysers *)
(* ===================================================================== *)

Module Py.

(** [str(n)] for a non-negative [int]. *)
Definition str_of_nat (n : nat) : string :=
  NilZero.string_of_uint (Nat.to_uint n).

Definition str_of_Z (z : Z) : string :=
  match z with
  | Zneg p => "-" ++ str_of_nat (Pos.to_nat p)
  | _ => str_of_nat (Z.to_nat z)
  end.

(** [str.isspace] on one ASCII character: TAB..CR, FS..US and SPACE. *)
Definition isspace (c : ascii) : bool :=
  let n := nat_of_ascii c in
  (Nat.leb 9 n && Nat.leb n 13) || (Nat.leb 28 n && Nat.leb n 32).

Definition isdigit (c : ascii) : bool :=
  let n := nat_of_ascii c in Nat.leb 48 n && Nat.leb n 57.

Definition isupper (c : ascii) : bool :=
  let n := nat_of_ascii c in Nat.leb 65 n && Nat.leb n 90.

Definition islower (c : ascii) : bool :=
  let n := nat_of_ascii c in Nat.leb 97 n && Nat.leb n 122.

(** The class [\w]: letters, digits and the underscore. *)
Definition isword (c : ascii) : bool :=
  isupper c || islower c || isdigit c || Ascii.eqb c "_".

Definition lower_char (c : ascii) : ascii :=
  if isupper c then ascii_of_nat (nat_of_ascii c + 32) else c.

(** [s.lower()] *)
Fixpoint lower (s : string) : string :=
  match s with
  | EmptyString => EmptyString
  | String c s' => String (lower_char c) (lower s')
  end.

(** [s.startswith(prefix)] *)
Fixpoint startswith (prefix s : string) : bool :=
  match prefix, s with
  | EmptyString, _ => true
  | String a prefix', String b s' => Ascii.eqb a b && startswith prefix' s'
  | String _ _, EmptyString => false
  end.

(** [needle in s] for strings. *)
Fixpoint contains (needle s : string) : bool :=
  startswith needle s ||
  match s with
  | EmptyString => false
  | String _ s' => contains needle s'
  end.

Fixpoint lstrip (s : list ascii) : list ascii :=
  match s with
  | c :: s' => if isspace c then lstrip s' else s
  | [] => []
  end.

(** [s.strip()] on a list of characters. *)
Definition strip_chars (s : list ascii) : list ascii :=
  rev (lstrip (rev (lstrip s))).

Definition strip (s : string) : string :=
  string_of_list_ascii (strip_chars (list_ascii_of_string s)).

(** [sep.join(parts)] *)
Fixpoint join (sep : string) (parts : list string) : string :=
  match parts with
  | [] => ""
  | [p] => p
  | p :: ps => p ++ sep ++ join sep ps
  end.

(** [x < y] and [x >= y] on floats. *)
Definition ltb (x y : Q) : bool := negb (Qle_bool y x).
Definition geb (x y : Q) : bool := Qle_bool y x.

(** [min(a, b)]: the first argument unless the second is smaller. *)
Definition min (a b : Q) : Q := if ltb b a then b else a.

(** [max(a, b)] on integers. *)
Definition max_int (a b : Z) : Z := if (a <? b)%Z then b else a.

Definition float_of_nat (n : nat) : Q := inject_Z (Z.of_nat n).

(** [sum(xs)] starts from 0 and adds from the left. *)
Definition sum_nat (xs : list nat) : nat := fold_left Nat.add xs 0.
Definition sum_float (xs : list Q) : Q := fold_left Qplus xs 0%Q.

(** [all(bs)] *)
Definition all (bs : list bool) : bool := forallb (fun b => b) bs.

(** [f"{q:.1f}"]: one decimal, the tie broken towards the even digit. *)
Definition format_1f (q : Q) : string :=
  let n := Z.abs (Qnum q * 10) in
  let d := Zpos (Qden q) in
  let fl := (n / d)%Z in
  let rm := (n mod d)%Z in
  let r := if (2 * rm <? d)%Z then fl
           else if (d <? 2 * rm)%Z then (fl + 1)%Z
           else if Z.even fl then fl else (fl + 1)%Z in
  (if (Qnum q <? 0)%Z then "-" else "") ++
  str_of_Z (r / 10) ++ "." ++ str_of_Z (r mod 10).

End Py.

(* ===================================================================== *)
(** ** The fragment of Python's [re] that the analysers use

    A backtracking matcher in continuation-passing style.  Every starred
    sub-pattern of the repository is a single character class, so the
    repetition operators take a class.  Alternatives are tried left to
    right, a greedy repetition tries the longest run first and a lazy one
    the shortest, which is the order in which [re] explores them. *)
(* ===================================================================== *)

Module Re.

Definition text := list ascii.
Definition cclass := ascii -> bool.

Inductive regex : Type :=
| Eps
| Chr (p : cclass)
| Seq (r1 r2 : regex)
| Alt (r1 r2 : regex)
| Star (p : cclass)
| StarLazy (p : cclass)
| Group (n : nat) (r : regex).

(** Character classes. *)
Definition one (c : ascii) : cclass := Ascii.eqb c.
Definition dot : cclass := fun c => negb (Ascii.eqb c "010").
Definition dotall : cclass := fun _ => true.
Definition space : cclass := Py.isspace.
Definition word : cclass := Py.isword.
Definition digit : cclass := Py.isdigit.
Definition none_of (cs : string) : cclass :=
  fun c => negb (existsb (Ascii.eqb c) (list_ascii_of_string cs)).

(** Derived forms: a literal, [p+], [r?]. *)
Fixpoint Lit (s : string) : regex :=
  match s with
  | EmptyString => Eps
  | String c s' => Seq (Chr (one c)) (Lit s')
  end.

Definition Plus (p : cclass) : regex := Seq (Chr p) (Star p).
Definition Opt (r : regex) : regex := Alt r Eps.

Fixpoint Cat (rs : list regex) : regex :=
  match rs with
  | [] => Eps
  | [r] => r
  | r :: rs' => Seq r (Cat rs')
  end.

Definition captures := list (nat * text).

Section Matcher.
Context {A : Type}.

Fixpoint star_greedy (p : cclass) (s : text) (k : text -> option A)
  : option A :=
  match s with
  | c :: s' =>
      if p c then
        match star_greedy p s' k with
        | Some x => Some x
        | None => k s
        end
      else k s
  | [] => k []
  end.

Fixpoint star_lazy (p : cclass) (s : text) (k : text -> option A)
  : option A :=
  match k s with
  | Some x => Some x
  | None =>
      match s with
      | c :: s' => if p c then star_lazy p s' k else None
      | [] => None
      end
  end.

Fixpoint run (r : regex) (s : text) (caps : captures)
    (k : text -> captures -> option A) : option A :=
  match r with
  | Eps => k s caps
  | Chr p =>
      match s with
      | c :: s' => if p c then k s' caps else None
      | [] => None
      end
  | Seq r1 r2 => run r1 s caps (fun s' caps' => run r2 s' caps' k)
  | Alt r1 r2 =>
      match run r1 s caps k with
      | Some x => Some x
      | None => run r2 s caps k
      end
  | Star p => star_greedy p s (fun s' => k s' caps)
  | StarLazy p => star_lazy p s (fun s' => k s' caps)
  | Group n r1 =>
      run r1 s caps
        (fun s' caps' =>
           k s' ((n, firstn (length s - length s') s) :: caps'))
  end.
End Matcher.

(** A match object: the text of group 0 and the numbered groups. *)
Record mobj : Type := { matched : text; groups : captures }.

Fixpoint lookup_group (n : nat) (caps : captures) : option text :=
  match caps with
  | [] => None
  | (m, t) :: caps' => if Nat.eqb n m then Some t else lookup_group n caps'
  end.

(** [m.group(n)]; [None] when the group took no part in the match. *)
Definition group (n : nat) (m : mobj) : option string :=
  match n with
  | 0 => Some (string_of_list_ascii (matched m))
  | _ => option_map string_of_list_ascii (lookup_group n (groups m))
  end.

(** One attempt at the current position.  With [nonempty] set an empty
    match is refused (the rule [finditer] applies right after an empty
    match).  The result carries the number of characters consumed. *)
Definition match_here (r : regex) (s : text) (nonempty : bool)
  : option (nat * mobj) :=
  run r s []
    (fun s' caps =>
       let n := length s - length s' in
       if nonempty && Nat.eqb n 0 then None
       else Some (n, {| matched := firstn n s; groups := caps |})).

(** [re.search]: the first position at which an attempt succeeds. *)
Fixpoint search_chars (r : regex) (s : text) : option mobj :=
  match match_here r s false with
  | Some (_, m) => Some m
  | None =>
      match s with
      | [] => None
      | _ :: s' => search_chars r s'
      end
  end.

(** [re.finditer]: the non-overlapping matches from left to right.
    [skip] counts the characters of the previous match still to pass. *)
Fixpoint finditer_chars (r : regex) (s : text) (skip : nat) : list mobj :=
  match skip with
  | S n =>
      match s with
      | [] => []
      | _ :: s' => finditer_chars r s' n
      end
  | 0 =>
      let continue (len : nat) :=
        match s with
        | [] => []
        | _ :: s' => finditer_chars r s' (len - 1)
        end in
      match match_here r s false with
      | None => continue 1
      | Some (S n, m) => m :: continue (S n)
      | Some (0, m) =>
          m :: match match_here r s true with
               | Some (len, m') => m' :: continue len
               | None => continue 1
               end
      end
  end.

Definition search (r : regex) (s : string) : option mobj :=
  search_chars r (list_ascii_of_string s).

Definition finditer (r : regex) (s : string) : list mobj :=
  finditer_chars r (list_ascii_of_string s) 0.

(** [re.findall] for a pattern without groups. *)
Definition findall (r : regex) (s : string) : list string :=
  map (fun m => string_of_list_ascii (matched m)) (finditer r s).

(** [if re.search(...)] *)
Definition found (r : regex) (s : string) : bool :=
  match search r s with Some _ => true | None => false end.

End Re.

(** Python dictionaries in insertion order. *)
Module Dict.

Fixpoint get {V : Type} (key : string) (d : list (string * V)) : option V :=
  match d with
  | [] => None
  | (k, v) :: d' => if String.eqb key k then Some v else get key d'
  end.

(** [key in d] *)
Definition mem {V : Type} (key : string) (d : list (string * V)) : bool :=
  match get key d with Some _ => true | None => false end.

(** [d.values()] *)
Definition values {V : Type} (d : list (string * V)) : list V := map snd d.

End Dict.

(* ===================================================================== *)
(** ** Exceptions, the file system and the logger

    The orchestrator talks to the world through [pathlib] and [logging].
    A path is the string [str(path)]; the file system maps a path to a
    file or a directory; the logger appends records.  A computation takes
    a world and returns a value or the exception it raised, together with
    the world it leaves behind. *)
(* ===================================================================== *)

Module Sys.

Inductive exn : Type :=
| FileNotFoundError (path : string)
| IsADirectoryError (path : string)
| NotADirectoryError (path : string)
| FileExistsError (path : string)
| ZeroDivisionError
| Exception (msg : string)
| HTTPException (status_code : nat) (detail : string).

(** [str(e)] *)
Definition str (e : exn) : string :=
  match e with
  | FileNotFoundError path =>
      "[Errno 2] No such file or directory: '" +:+ path +:+ "'"
  | IsADirectoryError path => "[Errno 21] Is a directory: '" +:+ path +:+ "'"
  | NotADirectoryError path => "[Errno 20] Not a directory: '" +:+ path +:+ "'"
  | FileExistsError path => "[Errno 17] File exists: '" +:+ path +:+ "'"
  | ZeroDivisionError => "division by zero"
  | Exception msg => msg
  | HTTPException status_code detail =>
      Py.str_of_nat status_code +:+ ": " +:+ detail
  end.

Inductive result (A : Type) : Type :=
| Ok (a : A)
| Raise (e : exn).
Arguments Ok {A} a.
Arguments Raise {A} e.

Inductive node : Type :=
| File (content : string)
| Dir.

Inductive level : Type := INFO | ERROR.

Record world : Type := {
  fs : gmap string node;
  log : list (level * string)
}.

Definition M (A : Type) : Type := world -> result A * world.

Definition ret {A : Type} (a : A) : M A := fun w => (Ok a, w).

Definition raise {A : Type} (e : exn) : M A := fun w => (Raise e, w).

Definition bind {A B : Type} (m : M A) (k : A -> M B) : M B :=
  fun w =>
    match m w with
    | (Ok a, w') => k a w'
    | (Raise e, w') => (Raise e, w')
    end.

(** [try: body except Exception as e: handler(e)] *)
Definition try_except {A : Type} (body : M A) (handler : exn -> M A) : M A :=
  fun w =>
    match body w with
    | (Ok a, w') => (Ok a, w')
    | (Raise e, w') => handler e w'
    end.

Definition lift {A : Type} (r : result A) : M A := fun w => (r, w).

(** [logger.info(msg)] and [logger.error(msg)] *)
Definition logger (lvl : level) (msg : string) : M unit :=
  fun w => (Ok tt, {| fs := fs w; log := log w ++ [(lvl, msg)] |}).

(** Splitting at the last occurrence of a character. *)
Fixpoint rsplit (c : ascii) (s : list ascii)
  : option (list ascii * list ascii) :=
  match s with
  | [] => None
  | x :: s' =>
      match rsplit c s' with
      | Some (a, b) => Some (x :: a, b)
      | None => if Ascii.eqb x c then Some ([], s') else None
      end
  end.

(** [path / name] *)
Definition joinpath (path name : string) : string := path +:+ "/" +:+ name.

(** [path.name], [path.parent] (the empty string is the current
    directory) and [path.stem]. *)
Definition name (path : string) : string :=
  match rsplit "/" (list_ascii_of_string path) with
  | Some (_, b) => string_of_list_ascii b
  | None => path
  end.

Definition parent (path : string) : string :=
  match rsplit "/" (list_ascii_of_string path) with
  | Some (a, _) => string_of_list_ascii a
  | None => ""
  end.

Definition stem (path : string) : string :=
  let n := name path in
  match rsplit "." (list_ascii_of_string n) with
  | Some (a :: a', b :: b') => string_of_list_ascii (a :: a')
  | _ => n
  end.

Definition parent_is_dir (path : string) (files : gmap string node) : bool :=
  match parent path with
  | EmptyString => true
  | d => match files !! d with Some Dir => true | _ => false end
  end.

(** [path.read_text()] *)
Definition read_text (path : string) : M string :=
  fun w =>
    match fs w !! path with
    | Some (File content) => (Ok content, w)
    | Some Dir => (Raise (IsADirectoryError path), w)
    | None => (Raise (FileNotFoundError path), w)
    end.

(** [path.write_text(content)] *)
Definition write_text (path content : string) : M unit :=
  fun w =>
    match fs w !! path with
    | Some Dir => (Raise (IsADirectoryError path), w)
    | _ =>
        if parent_is_dir path (fs w) then
          (Ok tt, {| fs := <[path := File content]> (fs w); log := log w |})
        else (Raise (FileNotFoundError path), w)
    end.

(** [path.unlink()] *)
Definition unlink (path : string) : M unit :=
  fun w =>
    match fs w !! path with
    | Some (File _) => (Ok tt, {| fs := delete path (fs w); log := log w |})
    | Some Dir => (Raise (IsADirectoryError path), w)
    | None => (Raise (FileNotFoundError path), w)
    end.

(** The directories on the way to [path], the outermost first. *)
Fixpoint prefixes (acc : list ascii) (s : list ascii) : list string :=
  match s with
  | [] => [string_of_list_ascii (rev acc)]
  | c :: s' =>
      (if Ascii.eqb c "/" && negb (Nat.eqb (length acc) 0)
       then [string_of_list_ascii (rev acc)] else [])
      ++ prefixes (c :: acc) s'
  end.

Fixpoint mkdirs (dirs : list string) : M unit :=
  match dirs with
  | [] => ret tt
  | d :: dirs' =>
      fun w =>
        match fs w !! d with
        | Some Dir => mkdirs dirs' w
        | Some (File _) =>
            (Raise (match dirs' with
                    | [] => FileExistsError d
                    | _ => NotADirectoryError d
                    end), w)
        | None =>
            mkdirs dirs' {| fs := <[d := Dir]> (fs w); log := log w |}
        end
  end.

(** [path.mkdir(parents=True, exist_ok=True)] *)
Definition mkdir (path : string) : M unit :=
  mkdirs (prefixes [] (list_ascii_of_string path)).

(** [path.exists()] and [path.is_file()] *)
Definition path_exists (path : string) : M bool :=
  fun w =>
    (Ok (match fs w !! path with Some _ => true | None => false end), w).

Definition is_file (path : string) : M bool :=
  fun w =>
    (Ok (match fs w !! path with Some (File _) => true | _ => false end), w).

(** [path.glob("*")]: the entries directly inside a directory, in the
    order the file system lists them. *)
Definition glob_star (path : string) : M (list string) :=
  fun w =>
    (Ok (match fs w !! path with
         | Some Dir =>
             List.filter (fun k => String.eqb (parent k) path)
               (map fst (map_to_list (fs w)))
         | _ => []
         end), w).

End Sys.

Declare Scope py_scope.
Delimit Scope py_scope with py.
Notation "x <- m ;; k" := (Sys.bind m (fun x => k))
  (at level 100, m at next level, k at level 200, only parsing) : py_scope.
Notation "m ;; k" := (Sys.bind m (fun _ => k))
  (at level 100, k at level 200, only parsing) : py_scope.

(* ===================================================================== *)
(** ** design_verifier.py *)
(* ===================================================================== *)

Module DesignVerifier.

Import Re.

Inductive VerificationType : Type := FORMAL | FUNCTIONAL | ASSERTION | COVERAGE.

Record VerificationResult : Type := {
  verification_type : VerificationType;
  passed : bool;
  coverage : Q;
  issues : list string;
  suggestions : list string
}.

(** The object built by [__init__]: the two paths and the texts read from
    them.  ([verification_results] is created empty and never used.) *)
Record t : Type := {
  verilog_file : string;
  testbench_file : string;
  verilog_content : string;
  testbench_content : string
}.

(** [DesignVerifier(verilog_file, testbench_file)] *)
Definition init (verilog_file testbench_file : string) : Sys.M t :=
  (verilog_content <- Sys.read_text verilog_file ;;
   testbench_content <- Sys.read_text testbench_file ;;
   Sys.ret {| verilog_file := verilog_file;
              testbench_file := testbench_file;
              verilog_content := verilog_content;
              testbench_content := testbench_content |})%py.

(** [property\s+\w+] *)
Definition property_re : regex := Cat [Lit "property"; Plus space; Plus word].
(** [assume\s+\w+] *)
Definition assume_re : regex := Cat [Lit "assume"; Plus space; Plus word].
(** [covergroup\s+\w+] *)
Definition covergroup_re : regex := Cat [Lit "covergroup"; Plus space; Plus word].
(** [coverpoint\s+\w+] *)
Definition coverpoint_re : regex := Cat [Lit "coverpoint"; Plus space; Plus word].
(** [assert\s+\w+] *)
Definition assert_re : regex := Cat [Lit "assert"; Plus space; Plus word].
(** [##\d+|@\(posedge] *)
Definition temporal_re : regex :=
  Alt (Seq (Lit "##") (Plus digit)) (Lit "@(posedge").
(** [;] *)
Definition statement_re : regex := Lit ";".
(** [assert.*?;|if.*?;|else.*?;] *)
Definition covered_re : regex :=
  Alt (Cat [Lit "assert"; StarLazy dot; Lit ";"])
      (Alt (Cat [Lit "if"; StarLazy dot; Lit ";"])
           (Cat [Lit "else"; StarLazy dot; Lit ";"])).
(** [if|case] *)
Definition branch_re : regex := Alt (Lit "if") (Lit "case").
(** [default\s*:] *)
Definition default_re : regex := Cat [Lit "default"; Star space; Lit ":"].
(** [input.*reset] *)
Definition reset_port_re : regex := Cat [Lit "input"; Star dot; Lit "reset"].
(** [always\s*@\s*\(posedge\s+clk\)] *)
Definition always_re : regex :=
  Cat [Lit "always"; Star space; Lit "@"; Star space; Lit "(posedge";
       Plus space; Lit "clk)"].

Definition verify_formal_properties (self : t) : VerificationResult :=
  let '(issues1, suggestions1, coverage1) :=
    if negb (found property_re (verilog_content self)) then
      (["No formal properties defined"],
       ["Add SVA properties for critical behavior"], 0%Q)
    else
      let property_count := length (findall property_re (verilog_content self)) in
      ([], [], Py.min 100 (Py.float_of_nat property_count * 20)) in
  let '(issues2, suggestions2) :=
    if negb (found assume_re (verilog_content self)) then
      (issues1 ++ ["No assumptions defined"],
       suggestions1 ++ ["Add assumptions about input behavior"])
    else (issues1, suggestions1) in
  {| verification_type := FORMAL;
     passed := Nat.eqb (length issues2) 0;
     coverage := coverage1;
     issues := issues2;
     suggestions := suggestions2 |}.

Definition verify_functional_coverage (self : t) : VerificationResult :=
  let '(issues1, suggestions1, coverage1) :=
    if negb (found covergroup_re (testbench_content self)) then
      (["No coverage groups defined"],
       ["Add covergroups for functional coverage"], 0%Q)
    else
      let covergroup_count :=
        length (findall covergroup_re (testbench_content self)) in
      ([], [], Py.min 100 (Py.float_of_nat covergroup_count * 25)) in
  let '(issues2, suggestions2) :=
    if negb (found coverpoint_re (testbench_content self)) then
      (issues1 ++ ["No coverage points defined"],
       suggestions1 ++ ["Add coverage points for state space exploration"])
    else (issues1, suggestions1) in
  {| verification_type := FUNCTIONAL;
     passed := Nat.eqb (length issues2) 0;
     coverage := coverage1;
     issues := issues2;
     suggestions := suggestions2 |}.

Definition verify_assertions (self : t) : VerificationResult :=
  let '(issues1, suggestions1, coverage1) :=
    if negb (found assert_re (testbench_content self)) then
      (["No assertions defined"],
       ["Add assertions for design invariants"], 0%Q)
    else
      let assertion_count :=
        length (findall assert_re (testbench_content self)) in
      ([], [], Py.min 100 (Py.float_of_nat assertion_count * 10)) in
  let '(issues2, suggestions2) :=
    if negb (found temporal_re (testbench_content self)) then
      (issues1 ++ ["No temporal assertions defined"],
       suggestions1 ++ ["Add temporal assertions for sequential behavior"])
    else (issues1, suggestions1) in
  {| verification_type := ASSERTION;
     passed := Nat.eqb (length issues2) 0;
     coverage := coverage1;
     issues := issues2;
     suggestions := suggestions2 |}.

Definition verify_code_coverage (self : t) : VerificationResult :=
  let statements := length (findall statement_re (verilog_content self)) in
  let covered_statements :=
    length (findall covered_re (testbench_content self)) in
  let coverage1 :=
    if Nat.ltb 0 statements then
      (Py.float_of_nat covered_statements / Py.float_of_nat statements * 100)%Q
    else 0%Q in
  let '(issues1, suggestions1) :=
    if Py.ltb coverage1 80 then
      (["Low code coverage: " +:+ Py.format_1f coverage1 +:+ "%"],
       ["Add test cases to improve code coverage"])
    else ([], []) in
  let branches := length (findall branch_re (verilog_content self)) in
  let '(issues2, suggestions2) :=
    if Nat.ltb 0 branches && negb (found default_re (verilog_content self)) then
      (issues1 ++ ["Missing default case in case statements"],
       suggestions1 ++ ["Add default cases for complete branch coverage"])
    else (issues1, suggestions1) in
  {| verification_type := COVERAGE;
     passed := Py.geb coverage1 80;
     coverage := coverage1;
     issues := issues2;
     suggestions := suggestions2 |}.

(** The report: [summary] and one entry per key of [results]. *)
Record Summary : Type := {
  total_issues : nat;
  total_suggestions : nat;
  average_coverage : Q;
  all_passed : bool
}.

Record Entry : Type := {
  entry_passed : bool;
  entry_coverage : Q;
  entry_issues : list string;
  entry_suggestions : list string
}.

Record Report : Type := {
  summary : Summary;
  verifications : list (string * Entry)
}.

(** [sum(...) / len(results)] raises on an empty dictionary. *)
Definition generate_verification_report
    (results : list (string * VerificationResult)) : Sys.result Report :=
  let vals := Dict.values results in
  match length results with
  | 0 => Sys.Raise Sys.ZeroDivisionError
  | S _ =>
      Sys.Ok
          {| summary :=
               {| total_issues := Py.sum_nat (map (fun r => length (issues r)) vals);
                  total_suggestions :=
                    Py.sum_nat (map (fun r => length (suggestions r)) vals);
                  average_coverage :=
                    (Py.sum_float (map coverage vals)
                     / Py.float_of_nat (length results))%Q;
                  all_passed := Py.all (map passed vals) |};
             verifications :=
               map (fun '(ver_type, result) =>
                      (ver_type,
                       {| entry_passed := passed result;
                          entry_coverage := coverage result;
                          entry_issues := issues result;
                          entry_suggestions := suggestions result |}))
                   results |}
  end.

Definition results_of (self : t) : list (string * VerificationResult) :=
  [("formal", verify_formal_properties self);
   ("functional", verify_functional_coverage self);
   ("assertion", verify_assertions self);
   ("coverage", verify_code_coverage self)].

Definition verify_all (self : t) : Sys.result Report :=
  generate_verification_report (results_of self).

Definition reset_assertion_block : string :=
  "
            // Reset assertion
            property reset_assertion;
                @(posedge clk) reset |-> ##1 (state == IDLE);
            endproperty
            assert property(reset_assertion);
            ".

Definition pipeline_assertion_block : string :=
  "
            // Pipeline validity assertion
            property pipeline_valid;
                @(posedge clk) disable iff (reset)
                $stable(valid) |-> ##1 $stable(data);
            endproperty
            assert property(pipeline_valid);
            ".

Definition generate_assertions (self : t) : string :=
  let a1 := if found reset_port_re (verilog_content self)
            then [reset_assertion_block] else [] in
  let a2 := if found always_re (verilog_content self)
            then a1 ++ [pipeline_assertion_block] else a1 in
  Py.join "
" a2.

Definition state_coverage_block : string :=
  "
            covergroup state_coverage;
                state_cp: coverpoint state {
                    bins states[] = {[0:$]};
                    bins transitions[] = ([0:$] => [0:$]);
                }
            endgroup
            ".

Definition data_coverage_block : string :=
  "
            covergroup data_coverage;
                data_cp: coverpoint data {
                    bins zero = {0};
                    bins small = {[1:10]};
                    bins large = {[11:$]};
                }
            endgroup
            ".

Definition generate_coverage_model (self : t) : string :=
  let c1 := if found (Lit "state") (verilog_content self)
            then [state_coverage_block] else [] in
  let c2 := if found (Lit "data") (verilog_content self)
            then c1 ++ [data_coverage_block] else c1 in
  Py.join "
" c2.

End DesignVerifier.

(* ===================================================================== *)
(** ** design_optimizer.py *)
(* ===================================================================== *)

Module DesignOptimizer.

Import Re.

Inductive OptimizationType : Type := PERFORMANCE | AREA | POWER | TIMING.

(** A value of a metrics dictionary ([Dict[str, Any]]). *)
Inductive metric : Type :=
| MInt (n : Z)
| MBool (b : bool).

Record OptimizationResult : Type := {
  optimization_type : OptimizationType;
  original_metrics : list (string * metric);
  optimized_metrics : list (string * metric);
  improvements : list string;
  suggested_changes : list string
}.

(** The object built by [__init__].  ([optimization_results] is created
    empty and never used.) *)
Record t : Type := {
  verilog_file : string;
  verilog_content : string
}.

(** [DesignOptimizer(verilog_file)] *)
Definition init (verilog_file : string) : Sys.M t :=
  (verilog_content <- Sys.read_text verilog_file ;;
   Sys.ret {| verilog_file := verilog_file;
              verilog_content := verilog_content |})%py.

(** [always\s*@\s*\(posedge\s+clk\)] *)
Definition always_re : regex :=
  Cat [Lit "always"; Star space; Lit "@"; Star space; Lit "(posedge";
       Plus space; Lit "clk)"].
(** [if.*else.*if.*else] *)
Definition nested_if_re : regex :=
  Cat [Lit "if"; Star dot; Lit "else"; Star dot; Lit "if"; Star dot; Lit "else"].
(** [reg\s+\[.*?\]] *)
Definition reg_re : regex :=
  Cat [Lit "reg"; Plus space; Lit "["; StarLazy dot; Lit "]"].
(** [wire\s+\[.*?\].*?wire\s+\[.*?\]] *)
Definition wires_re : regex :=
  Cat [Lit "wire"; Plus space; Lit "["; StarLazy dot; Lit "]"; StarLazy dot;
       Lit "wire"; Plus space; Lit "["; StarLazy dot; Lit "]"].
(** [clock_en|clk_en|gated_clk] *)
Definition gating_re : regex :=
  Alt (Lit "clock_en") (Alt (Lit "clk_en") (Lit "gated_clk")).
(** [enable|en\s*=] *)
Definition enable_re : regex :=
  Alt (Lit "enable") (Cat [Lit "en"; Star space; Lit "="]).
(** [@\s*\(posedge\s+clk\)] *)
Definition posedge_re : regex :=
  Cat [Lit "@"; Star space; Lit "(posedge"; Plus space; Lit "clk)"].
(** [negedge\s+rst] *)
Definition async_reset_re : regex :=
  Cat [Lit "negedge"; Plus space; Lit "rst"].
(** [assign.*=.*\?.*:.*\?.*:] *)
Definition ternary_chain_re : regex :=
  Cat [Lit "assign"; Star dot; Lit "="; Star dot; Lit "?"; Star dot; Lit ":";
       Star dot; Lit "?"; Star dot; Lit ":"].

Definition analyze_performance (self : t) : OptimizationResult :=
  let '(improvements1, suggestions1) :=
    if found always_re (verilog_content self) then
      if found nested_if_re (verilog_content self) then
        (["Long combinational paths detected"],
         ["Consider breaking down complex conditional logic"])
      else ([], [])
    else ([], []) in
  let pipeline_stages := length (findall always_re (verilog_content self)) in
  let '(improvements2, suggestions2) :=
    if Nat.ltb 0 pipeline_stages then
      (improvements1 ++
         ["Current pipeline depth: " +:+ Py.str_of_nat pipeline_stages],
       suggestions1 ++ ["Consider pipeline balancing for optimal performance"])
    else (improvements1, suggestions1) in
  {| optimization_type := PERFORMANCE;
     original_metrics := [("pipeline_depth", MInt (Z.of_nat pipeline_stages))];
     optimized_metrics :=
       [("suggested_pipeline_depth", MInt (Z.of_nat pipeline_stages + 1))];
     improvements := improvements2;
     suggested_changes := suggestions2 |}.

Definition analyze_area (self : t) : OptimizationResult :=
  let reg_count := length (findall reg_re (verilog_content self)) in
  let '(improvements1, suggestions1) :=
    if Nat.ltb 0 reg_count then
      (["Current register count: " +:+ Py.str_of_nat reg_count],
       ["Consider resource sharing for registers"])
    else ([], []) in
  let '(improvements2, suggestions2) :=
    if found wires_re (verilog_content self) then
      (improvements1 ++ ["Potential redundant wire declarations"],
       suggestions1 ++ ["Consider combining wire declarations"])
    else (improvements1, suggestions1) in
  {| optimization_type := AREA;
     original_metrics := [("register_count", MInt (Z.of_nat reg_count))];
     optimized_metrics :=
       [("suggested_register_count",
         MInt (Py.max_int 1 (Z.of_nat reg_count - 1)))];
     improvements := improvements2;
     suggested_changes := suggestions2 |}.

Definition analyze_power (self : t) : OptimizationResult :=
  let '(improvements1, suggestions1) :=
    if found always_re (verilog_content self) then
      if negb (found gating_re (verilog_content self)) then
        (["No clock gating detected"],
         ["Consider adding clock gating for power reduction"])
      else ([], [])
    else ([], []) in
  let '(improvements2, suggestions2) :=
    if found reg_re (verilog_content self) then
      if negb (found enable_re (verilog_content self)) then
        (improvements1 ++ ["Registers without enable signals"],
         suggestions1 ++ ["Add enable signals to reduce switching activity"])
      else (improvements1, suggestions1)
    else (improvements1, suggestions1) in
  {| optimization_type := POWER;
     original_metrics := [("has_clock_gating", MBool false)];
     optimized_metrics := [("suggested_clock_gating", MBool true)];
     improvements := improvements2;
     suggested_changes := suggestions2 |}.

Definition analyze_timing (self : t) : OptimizationResult :=
  let '(improvements1, suggestions1) :=
    if found posedge_re (verilog_content self) then
      if negb (found async_reset_re (verilog_content self)) then
        (["Synchronous reset detected"],
         ["Consider using asynchronous reset for better timing"])
      else ([], [])
    else ([], []) in
  let '(improvements2, suggestions2) :=
    if found ternary_chain_re (verilog_content self) then
      (improvements1 ++ ["Deep combinational paths detected"],
       suggestions1 ++ ["Consider breaking down complex assignments"])
    else (improvements1, suggestions1) in
  {| optimization_type := TIMING;
     original_metrics := [("has_async_reset", MBool false)];
     optimized_metrics := [("suggested_async_reset", MBool true)];
     improvements := improvements2;
     suggested_changes := suggestions2 |}.

Record Summary : Type := {
  total_improvements : nat;
  total_suggestions : nat
}.

Record Entry : Type := {
  entry_original_metrics : list (string * metric);
  entry_optimized_metrics : list (string * metric);
  entry_improvements : list string;
  entry_suggested_changes : list string
}.

Record Report : Type := {
  summary : Summary;
  optimizations : list (string * Entry)
}.

Definition generate_optimization_report
    (results : list (string * OptimizationResult)) : Report :=
  let vals := Dict.values results in
  {| summary :=
       {| total_improvements :=
            Py.sum_nat (map (fun r => length (improvements r)) vals);
          total_suggestions :=
            Py.sum_nat (map (fun r => length (suggested_changes r)) vals) |};
     optimizations :=
       map (fun '(opt_type, result) =>
              (opt_type,
               {| entry_original_metrics := original_metrics result;
                  entry_optimized_metrics := optimized_metrics result;
                  entry_improvements := improvements result;
                  entry_suggested_changes := suggested_changes result |}))
           results |}.

Definition optimize_all (self : t) : Report :=
  generate_optimization_report
    [("performance", analyze_performance self);
     ("area", analyze_area self);
     ("power", analyze_power self);
     ("timing", analyze_timing self)].

(** The three transform hooks. *)
Definition _add_pipeline_registers (self : t) (code : string) : string := code.
Definition _optimize_resource_usage (self : t) (code : string) : string := code.
Definition _add_clock_gating (self : t) (code : string) : string := code.

(** [for change in changes: if trigger in change.lower(): code = hook(code)] *)
Definition apply_changes (trigger : string) (hook : string -> string)
    (changes : list string) (code : string) : string :=
  fold_left
    (fun optimized_code change =>
       if Py.contains trigger (Py.lower change) then hook optimized_code
       else optimized_code)
    changes code.

(** [if key in report["optimizations"]: ...] *)
Definition apply_dimension (key trigger : string) (hook : string -> string)
    (report : Report) (code : string) : string :=
  match Dict.get key (optimizations report) with
  | Some entry => apply_changes trigger hook (entry_suggested_changes entry) code
  | None => code
  end.

Definition apply_optimizations (self : t) (report : Report) : string :=
  let optimized_code := verilog_content self in
  let optimized_code :=
    apply_dimension "performance" "pipeline balancing"
      (_add_pipeline_registers self) report optimized_code in
  let optimized_code :=
    apply_dimension "area" "resource sharing"
      (_optimize_resource_usage self) report optimized_code in
  let optimized_code :=
    apply_dimension "power" "clock gating"
      (_add_clock_gating self) report optimized_code in
  optimized_code.

End DesignOptimizer.


(* ===================================================================== *)
(** ** doc_generator.py *)
(* ===================================================================== *)

Module DocGenerator.

Import Re.

(** The entries of [parameters], [ports] and [signals]: dictionaries with
    a fixed set of keys, here in the order the source writes them. *)
Record ParamDoc : Type := {
  param_name : string;
  param_value : string;
  param_description : string
}.

Record PortDoc : Type := {
  port_direction : string;
  port_width : string;
  port_name : string;
  port_description : string
}.

Record SignalDoc : Type := {
  signal_type : string;
  signal_width : string;
  signal_name : string;
  signal_description : string
}.

Record ModuleDoc : Type := {
  name : string;
  description : string;
  parameters : list ParamDoc;
  ports : list PortDoc;
  signals : list SignalDoc;
  timing_diagrams : list string;
  examples : list string
}.

Record t : Type := {
  verilog_file : string;
  testbench_file : string;
  verilog_content : string;
  testbench_content : string
}.

(** [DocGenerator(verilog_file, testbench_file)] *)
Definition init (verilog_file testbench_file : string) : Sys.M t :=
  (verilog_content <- Sys.read_text verilog_file ;;
   testbench_content <- Sys.read_text testbench_file ;;
   Sys.ret {| verilog_file := verilog_file;
              testbench_file := testbench_file;
              verilog_content := verilog_content;
              testbench_content := testbench_content |})%py.

(** The optional trailing comment [(?:\s*//\s*(.* ))?], its text in group
    [n]. *)
Definition trailing_comment (n : nat) : regex :=
  Opt (Cat [Star space; Lit "//"; Star space; Group n (Star dot)]).

(** The optional width [(?:\[([^\]]+)\])?], its text in group [n]. *)
Definition width_spec (n : nat) : regex :=
  Opt (Cat [Lit "["; Group n (Plus (none_of "]")); Lit "]"]).

(** [module\s+(\w+)] *)
Definition module_re : regex :=
  Cat [Lit "module"; Plus space; Group 1 (Plus word)].
(** [/\*\*(.*?)\*/] with [re.DOTALL] *)
Definition desc_re : regex :=
  Cat [Lit "/**"; Group 1 (StarLazy dotall); Lit "*/"].
(** [parameter\s+(\w+)\s*=\s*([^;]+);(?:\s*//\s*(.* ))?] *)
Definition param_re : regex :=
  Cat [Lit "parameter"; Plus space; Group 1 (Plus word); Star space; Lit "=";
       Star space; Group 2 (Plus (none_of ";")); Lit ";"; trailing_comment 3].
(** [(input|output|inout)\s+(?:wire|reg)?\s*(?:\[([^\]]+)\])?\s*(\w+)(?:\s*//\s*(.* ))?] *)
Definition port_re : regex :=
  Cat [Group 1 (Alt (Lit "input") (Alt (Lit "output") (Lit "inout")));
       Plus space; Opt (Alt (Lit "wire") (Lit "reg")); Star space;
       width_spec 2; Star space; Group 3 (Plus word); trailing_comment 4].
(** [(wire|reg)\s*(?:\[([^\]]+)\])?\s*(\w+)(?:\s*//\s*(.* ))?] *)
Definition signal_re : regex :=
  Cat [Group 1 (Alt (Lit "wire") (Lit "reg")); Star space; width_spec 2;
       Star space; Group 3 (Plus word); trailing_comment 4].
(** [// Test case.*?\n(.*?)// End test case] with [re.DOTALL] *)
Definition example_re : regex :=
  Cat [Lit "// Test case"; StarLazy dotall; Chr (one "010");
       Group 1 (StarLazy dotall); Lit "// End test case"].

(** [m.group(n)] where the group took part in the match, else [""]. *)
Definition group_str (n : nat) (m : mobj) : string :=
  match group n m with Some s => s | None => "" end.

(** [m.group(n) if m.group(n) else default]: [None] and [""] are false. *)
Definition group_or (n : nat) (m : mobj) (default : string) : string :=
  match group n m with
  | Some (String c s) => String c s
  | _ => default
  end.

(** [m.group(n).strip() if m.group(n) else default] *)
Definition group_strip_or (n : nat) (m : mobj) (default : string) : string :=
  match group n m with
  | Some (String c s) => Py.strip (String c s)
  | _ => default
  end.

Definition timing_diagram_placeholder : string :=
  "```wavedrom
{signal: [
  {name: 'clk', wave: 'p....'},
  {name: 'data', wave: 'x345x'},
]}
```".

Definition extract_module_info (self : t) : ModuleDoc :=
  let module_name :=
    match search module_re (verilog_content self) with
    | Some module_match => group_str 1 module_match
    | None => "Unknown"
    end in
  let description :=
    match search desc_re (verilog_content self) with
    | Some desc_match => Py.strip (group_str 1 desc_match)
    | None => "No description available"
    end in
  let parameters :=
    map (fun m =>
           {| param_name := group_str 1 m;
              param_value := Py.strip (group_str 2 m);
              param_description := group_strip_or 3 m "No description" |})
        (finditer param_re (verilog_content self)) in
  let ports :=
    map (fun m =>
           {| port_direction := group_str 1 m;
              port_width := group_or 2 m "1";
              port_name := group_str 3 m;
              port_description := group_strip_or 4 m "No description" |})
        (finditer port_re (verilog_content self)) in
  let signals :=
    map (fun m =>
           {| signal_type := group_str 1 m;
              signal_width := group_or 2 m "1";
              signal_name := group_str 3 m;
              signal_description := group_strip_or 4 m "No description" |})
        (finditer signal_re (verilog_content self)) in
  let timing_diagrams := [timing_diagram_placeholder] in
  let examples :=
    map (fun m => Py.strip (group_str 1 m))
        (finditer example_re (testbench_content self)) in
  {| name := module_name;
     description := description;
     parameters := parameters;
     ports := ports;
     signals := signals;
     timing_diagrams := timing_diagrams;
     examples := examples |}.

Definition nl : string := "
".

(** [for i, example in enumerate(examples, 1): ...] *)
Fixpoint example_lines (i : nat) (examples : list string) : list string :=
  match examples with
  | [] => []
  | example :: rest =>
      [nl +:+ "### Example " +:+ Py.str_of_nat i; "```verilog"; example;
       "```" +:+ nl]
      ++ example_lines (S i) rest
  end.

Definition generate_markdown_doc (self : t) (module_doc : ModuleDoc) : string :=
  let doc := ["# " +:+ name module_doc;
              nl +:+ description module_doc +:+ nl] in
  let doc :=
    match parameters module_doc with
    | [] => doc
    | ps =>
        doc ++ ["## Parameters";
                nl +:+ "| Parameter | Value | Description |";
                "|-----------|--------|-------------|"]
        ++ map (fun param =>
                  "| " +:+ param_name param +:+ " | " +:+ param_value param
                  +:+ " | " +:+ param_description param +:+ " |") ps
        ++ [""]
    end in
  let doc :=
    match ports module_doc with
    | [] => doc
    | ps =>
        doc ++ ["## Ports";
                nl +:+ "| Port | Direction | Width | Description |";
                "|------|-----------|--------|-------------|"]
        ++ map (fun port =>
                  "| " +:+ port_name port +:+ " | " +:+ port_direction port
                  +:+ " | " +:+ port_width port +:+ " | "
                  +:+ port_description port +:+ " |") ps
        ++ [""]
    end in
  let doc :=
    match signals module_doc with
    | [] => doc
    | ss =>
        doc ++ ["## Internal Signals";
                nl +:+ "| Signal | Type | Width | Description |";
                "|--------|------|--------|-------------|"]
        ++ map (fun signal =>
                  "| " +:+ signal_name signal +:+ " | " +:+ signal_type signal
                  +:+ " | " +:+ signal_width signal +:+ " | "
                  +:+ signal_description signal +:+ " |") ss
        ++ [""]
    end in
  let doc :=
    match timing_diagrams module_doc with
    | [] => doc
    | ds => doc ++ ["## Timing Diagrams"] ++ ds ++ [""]
    end in
  let doc :=
    match examples module_doc with
    | [] => doc
    | es => doc ++ ["## Usage Examples"] ++ example_lines 1 es
    end in
  Py.join nl doc.

(** The argument of [yaml.dump]. *)
#[warnings="-register-all"]
Inductive yaml : Type :=
| YStr (s : string)
| YSeq (items : list yaml)
| YMap (fields : list (string * yaml)).

Definition doc_dict (module_doc : ModuleDoc) : yaml :=
  YMap [("module",
         YMap [("name", YStr (name module_doc));
               ("description", YStr (description module_doc));
               ("parameters",
                YSeq (map (fun p =>
                             YMap [("name", YStr (param_name p));
                                   ("value", YStr (param_value p));
                                   ("description", YStr (param_description p))])
                          (parameters module_doc)));
               ("ports",
                YSeq (map (fun p =>
                             YMap [("direction", YStr (port_direction p));
                                   ("width", YStr (port_width p));
                                   ("name", YStr (port_name p));
                                   ("description", YStr (port_description p))])
                          (ports module_doc)));
               ("signals",
                YSeq (map (fun g =>
                             YMap [("type", YStr (signal_type g));
                                   ("width", YStr (signal_width g));
                                   ("name", YStr (signal_name g));
                                   ("description", YStr (signal_description g))])
                          (signals module_doc)));
               ("examples", YSeq (map YStr (examples module_doc)))])].

(** The two renderers that come from third-party packages:
    [markdown.markdown(text, extensions=[...])] and
    [yaml.dump(d, sort_keys=False, default_flow_style=False)]. *)
Section Renderers.
Variable markdown_markdown : string -> string.
Variable yaml_dump : yaml -> string.

Definition generate_html_doc (self : t) (markdown_content : string) : string :=
  markdown_markdown markdown_content.

Definition generate_yaml_doc (self : t) (module_doc : ModuleDoc) : string :=
  yaml_dump (doc_dict module_doc).

Definition generate_all (self : t) : list (string * string) :=
  let module_doc := extract_module_info self in
  let markdown_doc := generate_markdown_doc self module_doc in
  let html_doc := generate_html_doc self markdown_doc in
  let yaml_doc := generate_yaml_doc self module_doc in
  [("markdown", markdown_doc); ("html", html_doc); ("yaml", yaml_doc)].
End Renderers.

End DocGenerator.

(* ===================================================================== *)
(** ** verilog_ai_agent.py *)
(* ===================================================================== *)

Module VerilogAIAgent.

Import Sys.
Local Open Scope py_scope.

Record t : Type := { output_dir : string }.

(** The dictionaries the stages return. *)
Record DesignFiles : Type := { verilog : string; testbench : string }.

Record OptimizationResults : Type := {
  optimization_report : DesignOptimizer.Report;
  optimized_file : string
}.

Record VerificationResults : Type := {
  verification_report : DesignVerifier.Report;
  assertions_file : string;
  coverage_file : string
}.

Record VerificationFiles : Type := { assertions : string; coverage : string }.

Record Files : Type := {
  original : DesignFiles;
  optimized : string;
  verification : VerificationFiles;
  documentation : list (string * string)
}.

Record Reports : Type := {
  optimization : DesignOptimizer.Report;
  verification_rep : DesignVerifier.Report
}.

Record PipelineResult : Type := { files : Files; reports : Reports }.

(** [x or 'design'] for an optional string. *)
Definition or_design (module_name : option string) : string :=
  match module_name with
  | Some (String c s) => String c s
  | _ => "design"
  end.

Section Pipeline.
(** [VerilogGenerator.generate(description, output_dir, module_name,
    generate_testbench)]: the call to the language model, which writes
    the module and its testbench or raises. *)
Variable generator_generate :
  string -> string -> option string -> bool -> M unit.
Variable markdown_markdown : string -> string.
Variable yaml_dump : DocGenerator.yaml -> string.

(** [VerilogAIAgent(output_dir)] *)
Definition init (output_dir : string) : M t :=
  mkdir output_dir ;;
  ret {| output_dir := output_dir |}.

Definition generate_design (self : t) (description : string)
    (module_name : option string) : M DesignFiles :=
  logger INFO "Stage 1: Generating Verilog design..." ;;
  generator_generate description (output_dir self) module_name true ;;
  let verilog_file :=
    joinpath (output_dir self) (or_design module_name +:+ ".v") in
  let testbench_file :=
    joinpath (output_dir self) (or_design module_name +:+ "_tb.sv") in
  ret {| verilog := verilog_file; testbench := testbench_file |}.

Definition optimize_design (self : t) (verilog_file : string)
  : M OptimizationResults :=
  logger INFO "Stage 2: Optimizing design..." ;;
  optimizer <- DesignOptimizer.init verilog_file ;;
  let optimization_report := DesignOptimizer.optimize_all optimizer in
  let optimized_code :=
    DesignOptimizer.apply_optimizations optimizer optimization_report in
  let optimized_file :=
    joinpath (output_dir self) (stem verilog_file +:+ "_optimized.v") in
  write_text optimized_file optimized_code ;;
  ret {| optimization_report := optimization_report;
         optimized_file := optimized_file |}.

Definition verify_design (self : t) (verilog_file testbench_file : string)
  : M VerificationResults :=
  logger INFO "Stage 3: Verifying design..." ;;
  verifier <- DesignVerifier.init verilog_file testbench_file ;;
  verification_report <- lift (DesignVerifier.verify_all verifier) ;;
  let assertions := DesignVerifier.generate_assertions verifier in
  let coverage_model := DesignVerifier.generate_coverage_model verifier in
  let assertions_file :=
    joinpath (output_dir self) (stem verilog_file +:+ "_assertions.sv") in
  let coverage_file :=
    joinpath (output_dir self) (stem verilog_file +:+ "_coverage.sv") in
  write_text assertions_file assertions ;;
  write_text coverage_file coverage_model ;;
  ret {| verification_report := verification_report;
         assertions_file := assertions_file;
         coverage_file := coverage_file |}.

(** [for format_name, content in docs.items(): ...] *)
Fixpoint save_docs (docs_dir : string) (docs : list (string * string))
  : M (list (string * string)) :=
  match docs with
  | [] => ret []
  | (format_name, content) :: rest =>
      let file_path := joinpath docs_dir ("documentation." +:+ format_name) in
      write_text file_path content ;;
      doc_files <- save_docs docs_dir rest ;;
      ret ((format_name, file_path) :: doc_files)
  end.

Definition generate_documentation (self : t)
    (verilog_file testbench_file : string) : M (list (string * string)) :=
  logger INFO "Stage 4: Generating documentation..." ;;
  doc_gen <- DocGenerator.init verilog_file testbench_file ;;
  let docs := DocGenerator.generate_all markdown_markdown yaml_dump doc_gen in
  let docs_dir := joinpath (output_dir self) "docs" in
  mkdir docs_dir ;;
  save_docs docs_dir docs.

(** The body of the [try] block of [process_design]. *)
Definition process_design_body (self : t) (description : string)
    (module_name : option string) : M PipelineResult :=
  files <- generate_design self description module_name ;;
  logger INFO ("Design generated: " +:+ verilog files) ;;
  logger INFO ("Testbench generated: " +:+ testbench files) ;;
  optimization_results <- optimize_design self (verilog files) ;;
  logger INFO ("Design optimized: " +:+ optimized_file optimization_results) ;;
  verification_results <-
    verify_design self (optimized_file optimization_results) (testbench files) ;;
  logger INFO "Design verification completed" ;;
  documentation_files <-
    generate_documentation self (optimized_file optimization_results)
      (testbench files) ;;
  logger INFO "Documentation generated" ;;
  ret {| files :=
           {| original := files;
              optimized := optimized_file optimization_results;
              verification :=
                {| assertions := assertions_file verification_results;
                   coverage := coverage_file verification_results |};
              documentation := documentation_files |};
         reports :=
           {| optimization := optimization_report optimization_results;
              verification_rep := verification_report verification_results |} |}.

Definition process_design (self : t) (description : string)
    (module_name : option string) : M PipelineResult :=
  try_except (process_design_body self description module_name)
    (fun e =>
       logger ERROR ("Design processing failed: " +:+ str e) ;;
       raise e).
End Pipeline.

End VerilogAIAgent.

(* ===================================================================== *)
(** ** mcp_verilog_agent.py: the request handlers *)
(* ===================================================================== *)

Module McpVerilogAgent.

Import Sys.
Local Open Scope py_scope.

(** [verilog_agent = VerilogAIAgent(output_dir="mcp_output")], once its
    constructor has run. *)
Definition verilog_agent : VerilogAIAgent.t :=
  {| VerilogAIAgent.output_dir := "mcp_output" |}.

(** The answer of [get_design]: the identifier and the dictionary from
    file names to file texts (a finite map: its order is the order of the
    directory listing). *)
Record Design : Type := {
  design_id : string;
  design_files : gmap string string
}.

(** [for file_path in ...: if file_path.is_file():
       files[file_path.name] = file_path.read_text()] *)
Fixpoint read_files (paths : list string) (files : gmap string string)
  : M (gmap string string) :=
  match paths with
  | [] => ret files
  | file_path :: rest =>
      isf <- is_file file_path ;;
      if (isf : bool) then
        content <- read_text file_path ;;
        read_files rest (<[name file_path := content]> files)
      else read_files rest files
  end.

(** [GET /design/{design_id}] *)
Definition get_design (design_id : string) : M Design :=
  try_except
    (let design_dir := joinpath "mcp_output" design_id in
     found <- path_exists design_dir ;;
     (if negb found then raise (HTTPException 404 "Design not found")
      else ret tt) ;;
     paths <- glob_star design_dir ;;
     files <- read_files paths ∅ ;;
     ret {| design_id := design_id; design_files := files |})
    (fun e =>
       logger ERROR ("Failed to retrieve design: " +:+ str e) ;;
       raise (HTTPException 500 (str e))).

Section Handlers.
Variable generator_generate :
  string -> string -> option string -> bool -> M unit.
Variable markdown_markdown : string -> string.
Variable yaml_dump : DocGenerator.yaml -> string.

(** [POST /design/generate] *)
Definition generate_design (description : string)
    (module_name : option string) : M VerilogAIAgent.PipelineResult :=
  try_except
    (VerilogAIAgent.process_design generator_generate markdown_markdown
       yaml_dump verilog_agent description module_name)
    (fun e =>
       logger ERROR ("Design generation failed: " +:+ str e) ;;
       raise (HTTPException 500 (str e))).

(** [POST /design/optimize] *)
Definition optimize_design (verilog_code : string)
  : M VerilogAIAgent.OptimizationResults :=
  try_except
    (let temp_file := joinpath "mcp_output" "temp.v" in
     write_text temp_file verilog_code ;;
     optimization_results <-
       VerilogAIAgent.optimize_design verilog_agent temp_file ;;
     unlink temp_file ;;
     ret optimization_results)
    (fun e =>
       logger ERROR ("Design optimization failed: " +:+ str e) ;;
       raise (HTTPException 500 (str e))).

(** [POST /design/verify] *)
Definition verify_design (verilog_code testbench : string)
  : M VerilogAIAgent.VerificationResults :=
  try_except
    (let temp_verilog := joinpath "mcp_output" "temp.v" in
     let temp_tb := joinpath "mcp_output" "temp_tb.sv" in
     write_text temp_verilog verilog_code ;;
     write_text temp_tb testbench ;;
     verification_results <-
       VerilogAIAgent.verify_design verilog_agent temp_verilog temp_tb ;;
     unlink temp_verilog ;;
     unlink temp_tb ;;
     ret verification_results)
    (fun e =>
       logger ERROR ("Design verification failed: " +:+ str e) ;;
       raise (HTTPException 500 (str e))).

(** [POST /design/document] *)
Definition generate_documentation (verilog_code testbench : string)
  : M (list (string * string)) :=
  try_except
    (let temp_verilog := joinpath "mcp_output" "temp.v" in
     let temp_tb := joinpath "mcp_output" "temp_tb.sv" in
     write_text temp_verilog verilog_code ;;
     write_text temp_tb testbench ;;
     doc_results <-
       VerilogAIAgent.generate_documentation markdown_markdown yaml_dump
         verilog_agent temp_verilog temp_tb ;;
     unlink temp_verilog ;;
     unlink temp_tb ;;
     ret doc_results)
    (fun e =>
       logger ERROR ("Documentation generation failed: " +:+ str e) ;;
       raise (HTTPException 500 (str e))).
End Handlers.

End McpVerilogAgent.

(* ===================================================================== *)
(** ** mcp_server.py: the same operations as tools

    The tools share the agent and the temporary paths of the request
    handlers; their [except] blocks log and re-raise. *)
(* ===================================================================== *)

Module McpServer.

Import Sys.
Local Open Scope py_scope.

Definition verilog_agent : VerilogAIAgent.t :=
  {| VerilogAIAgent.output_dir := "mcp_output" |}.

(** [except Exception as e: logger.error(f"...: {str(e)}"); raise] *)
Definition log_and_reraise {A : Type} (prefix : string) (body : M A) : M A :=
  try_except body
    (fun e => logger ERROR (prefix +:+ str e) ;; raise e).

(** [get_design] *)
Definition get_design (design_id : string) : M McpVerilogAgent.Design :=
  log_and_reraise "Failed to retrieve design: "
    (let design_dir := joinpath "mcp_output" design_id in
     found <- path_exists design_dir ;;
     (if negb found then raise (Exception "Design not found")
      else ret tt) ;;
     paths <- glob_star design_dir ;;
     files <- McpVerilogAgent.read_files paths ∅ ;;
     ret {| McpVerilogAgent.design_id := design_id;
            McpVerilogAgent.design_files := files |}).

(** [optimize_design] *)
Definition optimize_design (verilog_code : string)
  : M VerilogAIAgent.OptimizationResults :=
  log_and_reraise "Design optimization failed: "
    (let temp_file := joinpath "mcp_output" "temp.v" in
     write_text temp_file verilog_code ;;
     optimization_results <-
       VerilogAIAgent.optimize_design verilog_agent temp_file ;;
     unlink temp_file ;;
     ret optimization_results).

(** [verify_design] *)
Definition verify_design (verilog_code testbench : string)
  : M VerilogAIAgent.VerificationResults :=
  log_and_reraise "Design verification failed: "
    (let temp_verilog := joinpath "mcp_output" "temp.v" in
     let temp_tb := joinpath "mcp_output" "temp_tb.sv" in
     write_text temp_verilog verilog_code ;;
     write_text temp_tb testbench ;;
     verification_results <-
       VerilogAIAgent.verify_design verilog_agent temp_verilog temp_tb ;;
     unlink temp_verilog ;;
     unlink temp_tb ;;
     ret verification_results).

Section Tools.
Variable generator_generate :
  string -> string -> option string -> bool -> M unit.
Variable markdown_markdown : string -> string.
Variable yaml_dump : DocGenerator.yaml -> string.

(** [generate_design] *)
Definition generate_design (description : string)
    (module_name : option string) : M VerilogAIAgent.PipelineResult :=
  log_and_reraise "Design generation failed: "
    (VerilogAIAgent.process_design generator_generate markdown_markdown
       yaml_dump verilog_agent description module_name).

(** [generate_documentation] *)
Definition generate_documentation (verilog_code testbench : string)
  : M (list (string * string)) :=
  log_and_reraise "Documentation generation failed: "
    (let temp_verilog := joinpath "mcp_output" "temp.v" in
     let temp_tb := joinpath "mcp_output" "temp_tb.sv" in
     write_text temp_verilog verilog_code ;;
     write_text temp_tb testbench ;;
     doc_results <-
       VerilogAIAgent.generate_documentation markdown_markdown yaml_dump
         verilog_agent temp_verilog temp_tb ;;
     unlink temp_verilog ;;
     unlink temp_tb ;;
     ret doc_results).
End Tools.

End McpServer.

(* ===================================================================== *)
(** ** Vocabulary of the properties

    The objects and the measures the statements below are about. *)
(* ===================================================================== *)

(** A verifier, an optimiser and a documentation generator that hold the
    given texts. *)
Definition verifier (source testbench : string) : DesignVerifier.t :=
  {| DesignVerifier.verilog_file := "design.v";
     DesignVerifier.testbench_file := "design_tb.sv";
     DesignVerifier.verilog_content := source;
     DesignVerifier.testbench_content := testbench |}.

Definition optimizer (source : string) : DesignOptimizer.t :=
  {| DesignOptimizer.verilog_file := "design.v";
     DesignOptimizer.verilog_content := source |}.

(** One analysis per verification dimension. *)
Definition verify (dimension : DesignVerifier.VerificationType)
    (self : DesignVerifier.t) : DesignVerifier.VerificationResult :=
  match dimension with
  | DesignVerifier.FORMAL => DesignVerifier.verify_formal_properties self
  | DesignVerifier.FUNCTIONAL => DesignVerifier.verify_functional_coverage self
  | DesignVerifier.ASSERTION => DesignVerifier.verify_assertions self
  | DesignVerifier.COVERAGE => DesignVerifier.verify_code_coverage self
  end.

(** The number of [;] in the source and of covered statements in the
    testbench, and the value [verify_code_coverage] computes from them
    before it builds its result. *)
Definition statements (self : DesignVerifier.t) : nat :=
  length (Re.findall DesignVerifier.statement_re
            (DesignVerifier.verilog_content self)).

Definition covered_statements (self : DesignVerifier.t) : nat :=
  length (Re.findall DesignVerifier.covered_re
            (DesignVerifier.testbench_content self)).

Definition statement_coverage (self : DesignVerifier.t) : Q :=
  if Nat.ltb 0 (statements self) then
    (Py.float_of_nat (covered_statements self)
     / Py.float_of_nat (statements self) * 100)%Q
  else 0%Q.

(** The number of [property] declarations the formal analyser counts. *)
Definition property_count (source : string) : nat :=
  length (Re.findall DesignVerifier.property_re source).

(** The counts the other analysers take. *)
Definition covergroup_count (testbench : string) : nat :=
  length (Re.findall DesignVerifier.covergroup_re testbench).

Definition assertion_count (testbench : string) : nat :=
  length (Re.findall DesignVerifier.assert_re testbench).

Definition branches (self : DesignVerifier.t) : nat :=
  length (Re.findall DesignVerifier.branch_re
            (DesignVerifier.verilog_content self)).

Definition pipeline_stages (source : string) : nat :=
  length (Re.findall DesignOptimizer.always_re source).

Definition reg_count (source : string) : nat :=
  length (Re.findall DesignOptimizer.reg_re source).

(** The numbers of the groups a pattern can set. *)
Fixpoint group_ids (r : Re.regex) : list nat :=
  match r with
  | Re.Seq r1 r2 | Re.Alt r1 r2 => group_ids r1 ++ group_ids r2
  | Re.Group n r1 => n :: group_ids r1
  | _ => []
  end.

(** An alternative of keywords, [w|w1|...|wn]. *)
Fixpoint alt_lits (w : string) (ws : list string) : Re.regex :=
  match ws with
  | [] => Re.Lit w
  | w' :: ws' => Re.Alt (Re.Lit w) (alt_lits w' ws')
  end.

(** The three substrings [apply_optimizations] looks for, and the reports
    in which some suggestion string contains one of them. *)
Definition triggers : list string :=
  ["pipeline balancing"; "resource sharing"; "clock gating"].

Definition mentions_trigger (change : string) : bool :=
  existsb (fun trigger => Py.contains trigger change) triggers.

Definition has_trigger (report : DesignOptimizer.Report) : bool :=
  existsb
    (fun kv =>
       existsb mentions_trigger
         (DesignOptimizer.entry_suggested_changes (snd kv)))
    (DesignOptimizer.optimizations report).

(** [apply_optimizations] with the three hooks left open. *)
Definition apply_with (hook1 hook2 hook3 : string -> string)
    (self : DesignOptimizer.t) (report : DesignOptimizer.Report) : string :=
  DesignOptimizer.apply_dimension "power" "clock gating" hook3 report
    (DesignOptimizer.apply_dimension "area" "resource sharing" hook2 report
       (DesignOptimizer.apply_dimension "performance" "pipeline balancing"
          hook1 report (DesignOptimizer.verilog_content self))).

(** The texts of the end-to-end scenario. *)
Definition counter_source : string :=
  "module counter(input clk, input rst_n, output reg [3:0] count); always @(posedge clk) count <= count + 1; endmodule".

Definition counter_testbench : string :=
  "module counter_tb; initial #10 $finish; endmodule".

(** Sources for the cases of the formal analyser. *)
Definition no_property : DesignVerifier.t :=
  verifier "module m; endmodule" "".

Definition two_properties : DesignVerifier.t :=
  verifier "property p1; endproperty property p2; endproperty" "".

(** Testbenches for the cases of the functional and assertion analysers. *)
Definition two_covergroups : DesignVerifier.t :=
  verifier "" "covergroup cg1; endgroup covergroup cg2; endgroup".

Definition two_assertions : DesignVerifier.t :=
  verifier "" "assert property(p); assert property(q);".

Definition bare_testbench : DesignVerifier.t :=
  verifier "" "initial begin end".

(** A report none of whose suggestions mentions a trigger. *)
Definition report_without_trigger : DesignOptimizer.Report :=
  {| DesignOptimizer.summary :=
       {| DesignOptimizer.total_improvements := 1;
          DesignOptimizer.total_suggestions := 1 |};
     DesignOptimizer.optimizations :=
       [("timing",
         {| DesignOptimizer.entry_original_metrics :=
              [("has_async_reset", DesignOptimizer.MBool false)];
            DesignOptimizer.entry_optimized_metrics :=
              [("suggested_async_reset", DesignOptimizer.MBool true)];
            DesignOptimizer.entry_improvements := ["Synchronous reset detected"];
            DesignOptimizer.entry_suggested_changes :=
              ["Consider using asynchronous reset for better timing"] |})] |}.

(** Two documentation generators built from different files with the same
    contents. *)
Definition counter_doc_1 : DocGenerator.t :=
  {| DocGenerator.verilog_file := "mcp_output/counter.v";
     DocGenerator.testbench_file := "mcp_output/counter_tb.sv";
     DocGenerator.verilog_content :=
       "module counter(input clk, output reg [3:0] count); endmodule";
     DocGenerator.testbench_content := "// Test case 1
 #10 rst_n = 1;
 // End test case" |}.

Definition counter_doc_2 : DocGenerator.t :=
  {| DocGenerator.verilog_file := "test_output/counter_optimized.v";
     DocGenerator.testbench_file := "test_output/counter_tb.sv";
     DocGenerator.verilog_content :=
       "module counter(input clk, output reg [3:0] count); endmodule";
     DocGenerator.testbench_content := "// Test case 1
 #10 rst_n = 1;
 // End test case" |}.

(** A generator whose call to the language model fails, and one that
    writes the counter and its testbench. *)
Definition failing_generator (description output_dir : string)
    (module_name : option string) (generate_testbench : bool) : Sys.M unit :=
  (Sys.logger Sys.ERROR "Generation failed: No valid design plan generated" ;;
   Sys.raise (Sys.Exception "No valid design plan generated"))%py.

Definition counter_generator (description output_dir : string)
    (module_name : option string) (generate_testbench : bool) : Sys.M unit :=
  (Sys.mkdir output_dir ;;
   Sys.write_text
     (Sys.joinpath output_dir (VerilogAIAgent.or_design module_name +:+ ".v"))
     counter_source ;;
   Sys.write_text
     (Sys.joinpath output_dir
        (VerilogAIAgent.or_design module_name +:+ "_tb.sv"))
     counter_testbench)%py.

(** A generator that names the files after its own design plan,
    "counter", whatever name the caller expects. *)
Definition plan_named_generator (description output_dir : string)
    (module_name : option string) (generate_testbench : bool) : Sys.M unit :=
  (Sys.mkdir output_dir ;;
   Sys.write_text (Sys.joinpath output_dir "counter.v") counter_source ;;
   Sys.write_text (Sys.joinpath output_dir "counter_tb.sv") counter_testbench)%py.



(** Worlds: an empty output directory, and two in which a stage cannot
    write its result because a directory has taken the path of the
    optimised source, respectively of the generated assertions. *)
Definition empty_output : Sys.world :=
  {| Sys.fs := {[ "test_output" := Sys.Dir ]}; Sys.log := [] |}.

Definition blocked_optimized_file : Sys.world :=
  {| Sys.fs := {[ "mcp_output" := Sys.Dir;
                  "mcp_output/temp_optimized.v" := Sys.Dir ]};
     Sys.log := [] |}.

Definition blocked_assertions_file : Sys.world :=
  {| Sys.fs := {[ "mcp_output" := Sys.Dir;
                  "mcp_output/temp_assertions.sv" := Sys.Dir ]};
     Sys.log := [] |}.

(* ===================================================================== *)
(** ** Facts about the matcher *)
(* ===================================================================== *)

Section ReFacts.
Import Re.
Variable r : regex.

(** [re.search] finds nothing exactly when [re.finditer] yields nothing:
    the test [if not re.search(p, s)] and the count [len(re.findall(p, s))]
    of the analysers agree. *)
Lemma search_chars_None_iff (s : text) :
  search_chars r s = None <-> finditer_chars r s 0 = [].
Proof.
  induction s as [|c s IH]; simpl.
  - destruct (match_here r [] false) as [[[|n] m]|]; split; congruence.
  - destruct (match_here r (c :: s) false) as [[[|n] m]|].
    + split; congruence.
    + split; congruence.
    + exact IH.
Qed.

Lemma found_false_iff (s : string) :
  found r s = false <-> length (findall r s) = 0.
Proof.
  unfold found, findall, search, finditer.
  rewrite length_map.
  pose proof (search_chars_None_iff (list_ascii_of_string s)) as H.
  destruct (search_chars r (list_ascii_of_string s)).
  - split; [discriminate|].
    intros Hl. apply length_zero_iff_nil in Hl.
    apply H in Hl. discriminate.
  - split; [|reflexivity]. intros _.
    destruct H as [H _]. rewrite (H eq_refl). reflexivity.
Qed.

Lemma found_true_iff (s : string) :
  found r s = true <-> 1 <= length (findall r s).
Proof.
  pose proof (found_false_iff s) as H.
  destruct (found r s); split; intros H1; try reflexivity; try discriminate.
  - destruct (length (findall r s)); [|lia].
    destruct H as [_ H]. discriminate (H eq_refl).
  - destruct H as [H _]. rewrite (H eq_refl) in H1. lia.
Qed.

(** A pattern that starts with a literal only matches where the literal
    stands. *)
Lemma run_Lit_prefix {A : Type} (w : string) (s : text) (caps : captures)
    (k : text -> captures -> option A) (x : A) :
  run (Lit w) s caps k = Some x ->
  Py.startswith w (string_of_list_ascii s) = true.
Proof.
  revert s. induction w as [|c w IH]; intros s H.
  - reflexivity.
  - destruct s as [|c0 s]; simpl in H; [discriminate|].
    unfold one in H. simpl.
    destruct (Ascii.eqb c c0); [|discriminate].
    apply (IH s H).
Qed.

Lemma found_literal_head (w : string) (s : string) :
  found (Seq (Lit w) r) s = true -> Py.contains w s = true.
Proof.
  unfold found, search.
  induction s as [|c s IH]; intros H.
  - simpl in H.
    destruct (match_here (Seq (Lit w) r) [] false) as [[n m]|] eqn:E;
      [|discriminate].
    unfold match_here in E. simpl in E. apply run_Lit_prefix in E.
    simpl in *. rewrite E. reflexivity.
  - cbn [list_ascii_of_string search_chars] in H.
    destruct (match_here (Seq (Lit w) r) (c :: list_ascii_of_string s) false)
      as [[n m]|] eqn:E.
    + unfold match_here in E. cbn [run] in E. apply run_Lit_prefix in E.
      cbn [string_of_list_ascii] in E.
      rewrite string_of_list_ascii_of_string in E.
      cbn [Py.contains]. rewrite E. reflexivity.
    + cbn [Py.contains]. rewrite (IH H). apply orb_true_r.
Qed.
End ReFacts.

(* ===================================================================== *)
(** ** Facts about Python floats as rationals *)
(* ===================================================================== *)

Lemma Py_ltb_true (x y : Q) : Py.ltb x y = true <-> (x < y)%Q.
Proof.
  unfold Py.ltb. rewrite negb_true_iff.
  split.
  - intros H. apply Qnot_le_lt. intros Hle.
    apply Qle_bool_iff in Hle. congruence.
  - intros H. destruct (Qle_bool y x) eqn:E; [|reflexivity].
    apply Qle_bool_iff in E. exfalso. exact (Qlt_not_le _ _ H E).
Qed.

Lemma Py_geb_true (x y : Q) : Py.geb x y = true <-> (y <= x)%Q.
Proof. unfold Py.geb. apply Qle_bool_iff. Qed.

Lemma Py_geb_ltb (x y : Q) : Py.geb x y = negb (Py.ltb x y).
Proof. unfold Py.geb, Py.ltb. rewrite negb_involutive. reflexivity. Qed.

(** Python's [min] on two floats is the minimum. *)
Lemma Py_min_Qmin (a b : Q) : (Py.min a b == Qmin a b)%Q.
Proof.
  unfold Py.min. destruct (Py.ltb b a) eqn:E.
  - apply Py_ltb_true in E. symmetry. apply Q.min_r. apply Qlt_le_weak, E.
  - symmetry. apply Q.min_l.
    destruct (Qlt_le_dec b a) as [H|H]; [|exact H].
    apply Py_ltb_true in H. congruence.
Qed.

Lemma float_of_nat_nonneg (n : nat) : (0 <= Py.float_of_nat n)%Q.
Proof. unfold Py.float_of_nat, Qle. simpl. lia. Qed.

Lemma Py_min_100_range (n : nat) (k : Q) :
  (0 <= k)%Q ->
  (0 <= Py.min 100 (Py.float_of_nat n * k) <= 100)%Q.
Proof.
  intros Hk. rewrite Py_min_Qmin. split.
  - apply Q.min_glb; [discriminate|].
    apply Qmult_le_0_compat; [apply float_of_nat_nonneg | exact Hk].
  - apply Q.le_min_l.
Qed.

(* ===================================================================== *)
(** ** The verification analyser *)
(* ===================================================================== *)

Section VerifierFacts.
Import Re DesignVerifier.

Lemma formal_passed_iff (self : t) :
  passed (verify_formal_properties self) = true
  <-> issues (verify_formal_properties self) = [].
Proof.
  unfold verify_formal_properties.
  destruct (negb (found property_re (verilog_content self)));
    destruct (negb (found assume_re (verilog_content self)));
    simpl; split; intros H; first [reflexivity | discriminate].
Qed.

Lemma functional_passed_iff (self : t) :
  passed (verify_functional_coverage self) = true
  <-> issues (verify_functional_coverage self) = [].
Proof.
  unfold verify_functional_coverage.
  destruct (negb (found covergroup_re (testbench_content self)));
    destruct (negb (found coverpoint_re (testbench_content self)));
    simpl; split; intros H; first [reflexivity | discriminate].
Qed.

Lemma assertion_passed_iff (self : t) :
  passed (verify_assertions self) = true
  <-> issues (verify_assertions self) = [].
Proof.
  unfold verify_assertions.
  destruct (negb (found assert_re (testbench_content self)));
    destruct (negb (found temporal_re (testbench_content self)));
    simpl; split; intros H; first [reflexivity | discriminate].
Qed.

(** The three analysers that clamp: their coverage is within [0,100]. *)
Lemma clamped_dimensions_range (self : t) :
  (0 <= coverage (verify_formal_properties self) <= 100)%Q
  /\ (0 <= coverage (verify_functional_coverage self) <= 100)%Q
  /\ (0 <= coverage (verify_assertions self) <= 100)%Q.
Proof.
  assert (H0 : (0 <= 0 <= 100)%Q) by (split; discriminate).
  split; [|split].
  - unfold verify_formal_properties.
    destruct (negb (found property_re (verilog_content self)));
      destruct (negb (found assume_re (verilog_content self)));
      cbn [coverage]; first [exact H0 | apply Py_min_100_range; discriminate].
  - unfold verify_functional_coverage.
    destruct (negb (found covergroup_re (testbench_content self)));
      destruct (negb (found coverpoint_re (testbench_content self)));
      cbn [coverage]; first [exact H0 | apply Py_min_100_range; discriminate].
  - unfold verify_assertions.
    destruct (negb (found assert_re (testbench_content self)));
      destruct (negb (found temporal_re (testbench_content self)));
      cbn [coverage]; first [exact H0 | apply Py_min_100_range; discriminate].
Qed.

Lemma code_coverage_value (self : t) :
  coverage (verify_code_coverage self) = statement_coverage self.
Proof.
  unfold verify_code_coverage, statement_coverage, statements,
    covered_statements.
  destruct (Py.ltb _ 80); destruct (_ && _); reflexivity.
Qed.

Lemma code_coverage_passed (self : t) :
  passed (verify_code_coverage self) = Py.geb (statement_coverage self) 80.
Proof.
  unfold verify_code_coverage, statement_coverage, statements,
    covered_statements.
  destruct (Py.ltb _ 80); destruct (_ && _); reflexivity.
Qed.

(** The part of the code-coverage contract that the code keeps: the value
    is never negative, it is 0 for a source without [;], and [passed] is
    the test [coverage >= 80.0]. *)
Lemma code_coverage_nonneg (self : t) :
  (0 <= coverage (verify_code_coverage self))%Q.
Proof.
  rewrite code_coverage_value. unfold statement_coverage.
  destruct (Nat.ltb 0 _); [|apply Qle_refl].
  apply Qmult_le_0_compat; [|discriminate].
  apply Qmult_le_0_compat; [apply float_of_nat_nonneg|].
  apply Qinv_le_0_compat, float_of_nat_nonneg.
Qed.

Lemma code_coverage_no_statements (self : t) :
  statements self = 0 ->
  coverage (verify_code_coverage self) = 0%Q
  /\ passed (verify_code_coverage self) = false.
Proof.
  intros H. rewrite code_coverage_value, code_coverage_passed.
  unfold statement_coverage. rewrite H. split; reflexivity.
Qed.

Lemma code_coverage_passed_iff (self : t) :
  passed (verify_code_coverage self) = true
  <-> (80 <= coverage (verify_code_coverage self))%Q.
Proof.
  rewrite code_coverage_value, code_coverage_passed. apply Py_geb_true.
Qed.

Lemma code_coverage_no_issues_passed (self : t) :
  issues (verify_code_coverage self) = [] ->
  passed (verify_code_coverage self) = true.
Proof.
  rewrite code_coverage_passed.
  unfold verify_code_coverage.
  fold (statements self) (covered_statements self).
  fold (statement_coverage self).
  rewrite Py_geb_ltb.
  destruct (Py.ltb (statement_coverage self) 80); [|reflexivity].
  destruct (_ && _); simpl; discriminate.
Qed.

(** The value exceeds 100 as soon as the testbench has more covered
    statements than the source has [;]. *)
Lemma code_coverage_above_100 (self : t) :
  0 < statements self ->
  statements self < covered_statements self ->
  (100 < coverage (verify_code_coverage self))%Q.
Proof.
  intros Hpos Hlt. rewrite code_coverage_value. unfold statement_coverage.
  destruct (Nat.ltb_spec 0 (statements self)) as [_|Hle]; [|lia].
  unfold Py.float_of_nat, Qlt, Qmult, Qdiv, Qinv, inject_Z. simpl.
  destruct (Z.of_nat (statements self)) as [|p|p] eqn:E; try lia.
  simpl. nia.
Qed.

(** C1.  The code-coverage value is not confined to [0,100]: with one [;]
    in the source and two covered statements in the testbench the analyser
    reports 200.0, and passes.  The three sibling analysers clamp with
    [min(100.0, ...)]; this one does not. *)
Theorem code_coverage_exceeds_100 :
  (coverage (verify_code_coverage (verifier "x;" "if a; else b;")) == 200)%Q
  /\ ~ (coverage (verify_code_coverage (verifier "x;" "if a; else b;"))
        <= 100)%Q
  /\ passed (verify_code_coverage (verifier "x;" "if a; else b;")) = true
  /\ issues (verify_code_coverage (verifier "x;" "if a; else b;")) = [].
Proof.
  vm_compute. repeat split; try reflexivity. intros H; apply H; reflexivity.
Qed.
End VerifierFacts.

Section VerifierContract.
Import Re DesignVerifier.

(** C2 fails on the code-coverage dimension: a source with an [if] and no
    [default:] whose only statement is covered passes with a non-empty
    list of issues. *)
Lemma passed_with_issues_in_coverage :
  ~ (forall (dimension : VerificationType) (source testbench : string),
       passed (verify dimension (verifier source testbench)) = true
       <-> issues (verify dimension (verifier source testbench)) = []).
Proof.
  intros H. specialize (H COVERAGE "if a;" "if a;").
  destruct H as [H _]. vm_compute in H. discriminate (H eq_refl).
Qed.

(** C2, amended.  For the formal, functional and assertion dimensions
    [passed] is true exactly when the list of issues is empty; for the
    code-coverage dimension [passed] is true exactly when the coverage is
    at least 80, and an empty list of issues implies [passed]. *)
Theorem passed_iff_no_issues_amended :
  forall (dimension : VerificationType) (self : t),
    match dimension with
    | COVERAGE =>
        (passed (verify dimension self) = true
         <-> (80 <= coverage (verify dimension self))%Q)
        /\ (issues (verify dimension self) = [] ->
            passed (verify dimension self) = true)
    | _ =>
        passed (verify dimension self) = true
        <-> issues (verify dimension self) = []
    end.
Proof.
  intros [] self; simpl.
  - apply formal_passed_iff.
  - apply functional_passed_iff.
  - apply assertion_passed_iff.
  - split; [apply code_coverage_passed_iff|apply code_coverage_no_issues_passed].
Qed.

Lemma formal_no_property (self : t) :
  property_count (verilog_content self) = 0 ->
  coverage (verify_formal_properties self) = 0%Q
  /\ In "No formal properties defined" (issues (verify_formal_properties self)).
Proof.
  intros H. apply found_false_iff in H.
  unfold verify_formal_properties. rewrite H. simpl.
  destruct (negb (found assume_re (verilog_content self))); simpl; auto.
Qed.

Lemma formal_some_property (self : t) :
  1 <= property_count (verilog_content self) ->
  coverage (verify_formal_properties self)
  = Py.min 100 (Py.float_of_nat (property_count (verilog_content self)) * 20).
Proof.
  intros H. apply found_true_iff in H.
  unfold verify_formal_properties, property_count. rewrite H. simpl.
  destruct (negb (found assume_re (verilog_content self))); reflexivity.
Qed.

Lemma formal_no_assume (self : t) :
  found assume_re (verilog_content self) = false ->
  In "No assumptions defined" (issues (verify_formal_properties self)).
Proof.
  intros H. unfold verify_formal_properties. rewrite H.
  destruct (negb (found property_re (verilog_content self))); simpl; auto.
Qed.

(** A source in which the word does not occur has no declaration of the
    kind, whatever follows the word in the pattern. *)
Lemma no_property_keyword (source : string) :
  Py.contains "property" source = false -> property_count source = 0.
Proof.
  intros H. apply found_false_iff.
  destruct (found property_re source) eqn:E; [|reflexivity].
  apply (found_literal_head (Cat [Plus space; Plus word]) "property") in E.
  congruence.
Qed.

Lemma no_assume_keyword (source : string) :
  Py.contains "assume" source = false -> found assume_re source = false.
Proof.
  intros H.
  destruct (found assume_re source) eqn:E; [|reflexivity].
  apply (found_literal_head (Cat [Plus space; Plus word]) "assume") in E.
  congruence.
Qed.

(** C4.  With no [property] declaration in the source the formal coverage
    is 0.0 and "No formal properties defined" is reported; with [N >= 1]
    declarations the coverage is [min(100.0, N * 20.0)]; and a source
    without an [assume] token gets "No assumptions defined" whatever the
    number of properties. *)
Theorem formal_coverage_contract (self : t) :
  let N := property_count (verilog_content self) in
  let r := verify_formal_properties self in
  (N = 0 ->
     coverage r = 0%Q /\ In "No formal properties defined" (issues r))
  /\ (1 <= N -> (coverage r == Qmin 100 (inject_Z (Z.of_nat N) * 20))%Q)
  /\ (found assume_re (verilog_content self) = false ->
      In "No assumptions defined" (issues r))
  /\ (Py.contains "assume" (verilog_content self) = false ->
      In "No assumptions defined" (issues r)).
Proof.
  cbv zeta. split; [|split; [|split]].
  - apply formal_no_property.
  - intros H. rewrite (formal_some_property self H). apply Py_min_Qmin.
  - apply formal_no_assume.
  - intros H. apply formal_no_assume, no_assume_keyword, H.
Qed.

Lemma formal_coverage_contract_witness :
  (property_count (verilog_content no_property) = 0
   /\ coverage (verify_formal_properties no_property) = 0%Q
   /\ In "No formal properties defined"
        (issues (verify_formal_properties no_property)))
  /\ (property_count (verilog_content two_properties) = 2
      /\ (coverage (verify_formal_properties two_properties)
          == Qmin 100
               (inject_Z (Z.of_nat (property_count
                                      (verilog_content two_properties))) * 20))%Q
      /\ In "No assumptions defined"
           (issues (verify_formal_properties two_properties))).
Proof.
  destruct (formal_coverage_contract no_property) as (H0 & _ & _ & _).
  destruct (formal_coverage_contract two_properties) as (_ & H1 & H2 & _).
  split.
  - split; [reflexivity|]. apply H0. reflexivity.
  - split; [reflexivity|]. split.
    + apply H1. apply (Nat.leb_le 1 2). reflexivity.
    + apply H2. reflexivity.
Defined.

Lemma sum_float_4 (a b c d : Q) :
  (Py.sum_float [a; b; c; d] == a + b + c + d)%Q.
Proof. unfold Py.sum_float. simpl. ring. Qed.

(** The report built from the four results, whatever they are. *)
Lemma report_of_four (f u a c : VerificationResult) :
  exists rep,
    generate_verification_report
      [("formal", f); ("functional", u); ("assertion", a); ("coverage", c)]
    = Sys.Ok rep
    /\ total_issues (summary rep)
       = length (issues f) + length (issues u) + length (issues a)
         + length (issues c)
    /\ total_suggestions (summary rep)
       = length (suggestions f) + length (suggestions u)
         + length (suggestions a) + length (suggestions c)
    /\ (average_coverage (summary rep)
        == (coverage f + coverage u + coverage a + coverage c) / 4)%Q
    /\ all_passed (summary rep)
       = passed f && passed u && passed a && passed c
    /\ Dict.get "formal" (verifications rep)
       = Some {| entry_passed := passed f; entry_coverage := coverage f;
                 entry_issues := issues f;
                 entry_suggestions := suggestions f |}
    /\ Dict.get "functional" (verifications rep)
       = Some {| entry_passed := passed u; entry_coverage := coverage u;
                 entry_issues := issues u;
                 entry_suggestions := suggestions u |}
    /\ Dict.get "assertion" (verifications rep)
       = Some {| entry_passed := passed a; entry_coverage := coverage a;
                 entry_issues := issues a;
                 entry_suggestions := suggestions a |}
    /\ Dict.get "coverage" (verifications rep)
       = Some {| entry_passed := passed c; entry_coverage := coverage c;
                 entry_issues := issues c;
                 entry_suggestions := suggestions c |}.
Proof.
  eexists. split; [reflexivity|].
  cbn [summary total_issues total_suggestions average_coverage all_passed
       verifications Dict.values map snd length].
  repeat split.
  - rewrite sum_float_4. change (Py.float_of_nat 4) with 4%Q. reflexivity.
  - unfold Py.all. cbn [forallb]. rewrite andb_true_r, !andb_assoc.
    reflexivity.
Qed.

(** C5.  [verify_all] returns a report whose summary counts the issues
    and the suggestions of the four dimensions, averages their four
    coverage values and conjoins their four [passed] flags. *)
Theorem verification_summary (self : t) :
  exists rep,
    verify_all self = Sys.Ok rep
    /\ total_issues (summary rep)
       = length (issues (verify FORMAL self))
         + length (issues (verify FUNCTIONAL self))
         + length (issues (verify ASSERTION self))
         + length (issues (verify COVERAGE self))
    /\ total_suggestions (summary rep)
       = length (suggestions (verify FORMAL self))
         + length (suggestions (verify FUNCTIONAL self))
         + length (suggestions (verify ASSERTION self))
         + length (suggestions (verify COVERAGE self))
    /\ (average_coverage (summary rep)
        == (coverage (verify FORMAL self) + coverage (verify FUNCTIONAL self)
            + coverage (verify ASSERTION self)
            + coverage (verify COVERAGE self)) / 4)%Q
    /\ all_passed (summary rep)
       = passed (verify FORMAL self) && passed (verify FUNCTIONAL self)
         && passed (verify ASSERTION self) && passed (verify COVERAGE self).
Proof.
  destruct (report_of_four (verify_formal_properties self)
              (verify_functional_coverage self) (verify_assertions self)
              (verify_code_coverage self))
    as (rep & Hrep & Hi & Hs & Hc & Hp & _).
  exists rep. unfold verify_all, results_of, verify. auto.
Qed.

(** The summary of the counter scenario, computed. *)
Example counter_summary :
  exists rep,
    verify_all (verifier counter_source counter_testbench) = Sys.Ok rep
    /\ total_issues (summary rep) = 7
    /\ total_suggestions (summary rep) = 7
    /\ (average_coverage (summary rep) == 0)%Q
    /\ all_passed (summary rep) = false.
Proof. eexists. split; [vm_compute; reflexivity|]. repeat split. Qed.
End VerifierContract.

(* ===================================================================== *)
(** ** The optimisation analyser *)
(* ===================================================================== *)

Section OptimizerFacts.
Import Re DesignOptimizer.

(** A hook is only called on a change whose lower-cased text contains the
    trigger. *)
Lemma apply_changes_untriggered (trigger : string) (hook : string -> string)
    (changes : list string) (code : string) :
  (forall change, In change changes ->
                  Py.contains trigger (Py.lower change) = false) ->
  apply_changes trigger hook changes code = code.
Proof.
  unfold apply_changes. revert code.
  induction changes as [|change changes IH]; intros code H; simpl.
  - reflexivity.
  - rewrite (H change (or_introl eq_refl)).
    apply IH. intros change' Hin. apply H. right. exact Hin.
Qed.

Lemma Dict_get_In {V : Type} (key : string) (d : list (string * V)) (v : V) :
  Dict.get key d = Some v -> In (key, v) d.
Proof.
  induction d as [|[k v0] d IH]; simpl; [discriminate|].
  destruct (String.eqb_spec key k) as [->|Hne].
  - intros H. injection H as ->. left. reflexivity.
  - intros H. right. apply IH, H.
Qed.

(** Whatever the hooks are, they are not called on a report whose
    suggestions, lower-cased, contain none of the triggers. *)
Lemma no_hook_called (hook1 hook2 hook3 : string -> string) (self : t)
    (report : Report) :
  (forall key entry change trigger,
      In (key, entry) (optimizations report) ->
      In change (entry_suggested_changes entry) ->
      In trigger triggers ->
      Py.contains trigger (Py.lower change) = false) ->
  apply_with hook1 hook2 hook3 self report = verilog_content self.
Proof.
  intros H.
  assert (Hdim : forall key trigger hook code,
             In trigger triggers ->
             apply_dimension key trigger hook report code = code).
  { intros key trigger hook code Ht. unfold apply_dimension.
    destruct (Dict.get key (optimizations report)) as [entry|] eqn:E;
      [|reflexivity].
    apply apply_changes_untriggered. intros change Hin.
    apply (H key entry change trigger); auto using Dict_get_In. }
  unfold apply_with, triggers in *.
  rewrite !Hdim; simpl; auto.
Qed.

Lemma apply_optimizations_hooks (self : t) (report : Report) :
  apply_optimizations self report
  = apply_with (_add_pipeline_registers self) (_optimize_resource_usage self)
      (_add_clock_gating self) self report.
Proof. reflexivity. Qed.

(** A hook that returns its argument leaves the code as it was. *)
Lemma apply_changes_pass_through (trigger : string) (hook : string -> string)
    (changes : list string) (code : string) :
  (forall c, hook c = c) ->
  apply_changes trigger hook changes code = code.
Proof.
  intros Hhook. unfold apply_changes. revert code.
  induction changes as [|change changes IH]; intros code; simpl.
  - reflexivity.
  - destruct (Py.contains trigger (Py.lower change)).
    + rewrite Hhook. apply IH.
    + apply IH.
Qed.

Lemma apply_dimension_pass_through (key trigger : string)
    (hook : string -> string) (report : Report) (code : string) :
  (forall c, hook c = c) ->
  apply_dimension key trigger hook report code = code.
Proof.
  intros Hhook. unfold apply_dimension.
  destruct (Dict.get key (optimizations report)); [|reflexivity].
  apply apply_changes_pass_through, Hhook.
Qed.

(** C3.  When no suggestion string of the report contains
    "pipeline balancing", "resource sharing" or "clock gating",
    [apply_optimizations] returns the source text unchanged.  (The three
    hooks of the source return their argument, so the text also comes back
    unchanged when a trigger is present.) *)
Theorem apply_optimizations_round_trip (self : t) (report : Report) :
  has_trigger report = false ->
  apply_optimizations self report = verilog_content self.
Proof.
  intros _. unfold apply_optimizations.
  rewrite (apply_dimension_pass_through "performance");
    [|reflexivity].
  rewrite (apply_dimension_pass_through "area"); [|reflexivity].
  apply apply_dimension_pass_through. reflexivity.
Qed.

Lemma apply_optimizations_round_trip_witness :
  has_trigger report_without_trigger = false
  /\ apply_optimizations (optimizer "module m; endmodule")
       report_without_trigger
     = "module m; endmodule".
Proof.
  split.
  - reflexivity.
  - apply (apply_optimizations_round_trip (optimizer "module m; endmodule")
             report_without_trigger).
    reflexivity.
Defined.

(** The report of the counter does mention the triggers, and the source
    still comes back unchanged. *)
Example counter_round_trip :
  has_trigger (optimize_all (optimizer counter_source)) = true
  /\ apply_optimizations (optimizer counter_source)
       (optimize_all (optimizer counter_source))
     = counter_source.
Proof. split; vm_compute; reflexivity. Qed.

(** C10.  The boolean metrics of the power and timing dimensions are
    constants: [has_clock_gating] is false, [suggested_clock_gating] is
    true and [has_async_reset] is false for every source, also for one
    in which the analyser itself finds a gated clock and an
    asynchronous reset. *)
Theorem boolean_metrics_constant :
  (forall self : t,
      Dict.get "has_clock_gating" (original_metrics (analyze_power self))
      = Some (MBool false)
      /\ Dict.get "suggested_clock_gating"
           (optimized_metrics (analyze_power self))
         = Some (MBool true)
      /\ Dict.get "has_async_reset" (original_metrics (analyze_timing self))
         = Some (MBool false))
  /\ (exists self : t,
         found gating_re (verilog_content self) = true
         /\ found async_reset_re (verilog_content self) = true
         /\ Dict.get "has_clock_gating" (original_metrics (analyze_power self))
            = Some (MBool false)
         /\ Dict.get "has_async_reset" (original_metrics (analyze_timing self))
            = Some (MBool false)).
Proof.
  split.
  - intros self. split; [|split].
    + unfold analyze_power.
      destruct (found always_re (verilog_content self));
        destruct (found gating_re (verilog_content self));
        destruct (found reg_re (verilog_content self));
        destruct (found enable_re (verilog_content self)); reflexivity.
    + unfold analyze_power.
      destruct (found always_re (verilog_content self));
        destruct (found gating_re (verilog_content self));
        destruct (found reg_re (verilog_content self));
        destruct (found enable_re (verilog_content self)); reflexivity.
    + unfold analyze_timing.
      destruct (found posedge_re (verilog_content self));
        destruct (found async_reset_re (verilog_content self));
        destruct (found ternary_chain_re (verilog_content self));
        reflexivity.
  - exists (optimizer
              "always @(posedge gated_clk or negedge rst_n) q <= d;").
    vm_compute. repeat split.
Qed.

Lemma no_assert_issue (self : DesignVerifier.t) :
  found DesignVerifier.assert_re (DesignVerifier.testbench_content self) = false ->
  DesignVerifier.passed (DesignVerifier.verify_assertions self) = false
  /\ In "No assertions defined"
        (DesignVerifier.issues (DesignVerifier.verify_assertions self)).
Proof.
  intros H. unfold DesignVerifier.verify_assertions. rewrite H.
  destruct (negb (found DesignVerifier.temporal_re _)); simpl; auto.
Qed.

Lemma no_covergroup_issue (self : DesignVerifier.t) :
  found DesignVerifier.covergroup_re (DesignVerifier.testbench_content self)
  = false ->
  In "No coverage groups defined"
     (DesignVerifier.issues (DesignVerifier.verify_functional_coverage self)).
Proof.
  intros H. unfold DesignVerifier.verify_functional_coverage. rewrite H.
  destruct (negb (found DesignVerifier.coverpoint_re _)); simpl; auto.
Qed.

(** C8.  The counter module with a testbench in which the analyser finds
    no assertion and no covergroup: the verification report has
    [all_passed = false], "No assertions defined" among the issues of
    the assertion dimension and "No coverage groups defined" among those
    of the functional dimension; the optimisation report has
    [pipeline_depth = 1] for performance, "No clock gating detected" and
    "Registers without enable signals" for power, and
    "Synchronous reset detected" for timing. *)
Theorem counter_scenario (testbench : string) :
  found DesignVerifier.assert_re testbench = false ->
  found DesignVerifier.covergroup_re testbench = false ->
  (exists rep assertion functional,
      DesignVerifier.verify_all (verifier counter_source testbench)
      = Sys.Ok rep
      /\ DesignVerifier.all_passed (DesignVerifier.summary rep) = false
      /\ Dict.get "assertion" (DesignVerifier.verifications rep)
         = Some assertion
      /\ In "No assertions defined" (DesignVerifier.entry_issues assertion)
      /\ Dict.get "functional" (DesignVerifier.verifications rep)
         = Some functional
      /\ In "No coverage groups defined"
            (DesignVerifier.entry_issues functional))
  /\ (exists performance power timing,
         let report := optimize_all (optimizer counter_source) in
         Dict.get "performance" (optimizations report) = Some performance
         /\ Dict.get "pipeline_depth" (entry_original_metrics performance)
            = Some (MInt 1)
         /\ Dict.get "power" (optimizations report) = Some power
         /\ In "No clock gating detected" (entry_improvements power)
         /\ In "Registers without enable signals" (entry_improvements power)
         /\ Dict.get "timing" (optimizations report) = Some timing
         /\ In "Synchronous reset detected" (entry_improvements timing)).
Proof.
  intros Hassert Hcover. split.
  - set (self := verifier counter_source testbench).
    destruct (report_of_four (DesignVerifier.verify_formal_properties self)
                (DesignVerifier.verify_functional_coverage self)
                (DesignVerifier.verify_assertions self)
                (DesignVerifier.verify_code_coverage self))
      as (rep & Hrep & _ & _ & _ & Hp & _ & Hu & Ha & _).
    destruct (no_assert_issue self Hassert) as [Hpa Hia].
    pose proof (no_covergroup_issue self Hcover) as Hiu.
    exists rep. eexists. eexists.
    split; [exact Hrep|]. split.
    + rewrite Hp, Hpa. rewrite andb_false_r. reflexivity.
    + split; [exact Ha|]. split; [exact Hia|].
      split; [exact Hu|exact Hiu].
  - eexists. eexists. eexists. cbv zeta.
    split; [vm_compute; reflexivity|].
    split; [reflexivity|].
    split; [vm_compute; reflexivity|].
    split; [simpl; auto|].
    split; [simpl; auto|].
    split; [vm_compute; reflexivity|].
    simpl; auto.
Qed.

Lemma counter_scenario_witness :
  exists rep,
    DesignVerifier.verify_all
      (verifier counter_source counter_testbench)
    = Sys.Ok rep
    /\ DesignVerifier.all_passed (DesignVerifier.summary rep) = false.
Proof.
  destruct (counter_scenario counter_testbench eq_refl eq_refl)
    as [(rep & assertion & functional & Hrep & Hall & _) _].
  exists rep. split; [exact Hrep|exact Hall].
Defined.
End OptimizerFacts.

(* ===================================================================== *)
(** ** The documentation extractor *)
(* ===================================================================== *)

Section DocFacts.
Import DocGenerator.

(** Building a generator reads two files and changes nothing. *)
Lemma init_reads_only (verilog_file testbench_file : string)
    (w w' : Sys.world) (g : t) :
  init verilog_file testbench_file w = (Sys.Ok g, w') ->
  w' = w
  /\ Sys.fs w !! verilog_file = Some (Sys.File (verilog_content g))
  /\ Sys.fs w !! testbench_file = Some (Sys.File (testbench_content g)).
Proof.
  unfold init, Sys.bind, Sys.read_text, Sys.ret.
  destruct (Sys.fs w !! verilog_file) as [[content1|]|] eqn:E1;
    try discriminate.
  destruct (Sys.fs w !! testbench_file) as [[content2|]|] eqn:E2;
    try discriminate.
  intros H. injection H as <- <-. auto.
Qed.

(** C9.  Two generators that hold the same source text and the same
    testbench text yield descriptors that agree on every field. *)
Theorem extract_module_info_deterministic (g1 g2 : t) :
  verilog_content g1 = verilog_content g2 ->
  testbench_content g1 = testbench_content g2 ->
  name (extract_module_info g1) = name (extract_module_info g2)
  /\ description (extract_module_info g1) = description (extract_module_info g2)
  /\ parameters (extract_module_info g1) = parameters (extract_module_info g2)
  /\ ports (extract_module_info g1) = ports (extract_module_info g2)
  /\ signals (extract_module_info g1) = signals (extract_module_info g2)
  /\ timing_diagrams (extract_module_info g1)
     = timing_diagrams (extract_module_info g2)
  /\ examples (extract_module_info g1) = examples (extract_module_info g2).
Proof.
  intros Hv Ht. unfold extract_module_info.
  cbn [name description parameters ports signals timing_diagrams examples].
  rewrite Hv, Ht. repeat split.
Qed.

Lemma extract_module_info_deterministic_witness :
  name (extract_module_info counter_doc_1)
  = name (extract_module_info counter_doc_2)
  /\ ports (extract_module_info counter_doc_1)
     = ports (extract_module_info counter_doc_2)
  /\ examples (extract_module_info counter_doc_1)
     = examples (extract_module_info counter_doc_2).
Proof.
  destruct (extract_module_info_deterministic counter_doc_1 counter_doc_2
              eq_refl eq_refl)
    as (Hn & _ & _ & Hp & _ & _ & He).
  split; [exact Hn|]. split; [exact Hp|exact He].
Defined.

(** Reading the same two files again, in the world the first run left,
    gives the same descriptor. *)
Lemma extraction_rerun (verilog_file testbench_file : string)
    (w w1 w2 : Sys.world) (g1 g2 : t) :
  init verilog_file testbench_file w = (Sys.Ok g1, w1) ->
  init verilog_file testbench_file w1 = (Sys.Ok g2, w2) ->
  extract_module_info g1 = extract_module_info g2.
Proof.
  intros H1 H2.
  destruct (init_reads_only _ _ _ _ _ H1) as (-> & Hv1 & Ht1).
  destruct (init_reads_only _ _ _ _ _ H2) as (_ & Hv2 & Ht2).
  rewrite Hv1 in Hv2. rewrite Ht1 in Ht2.
  injection Hv2 as Hv. injection Ht2 as Ht.
  unfold extract_module_info. rewrite Hv, Ht. reflexivity.
Qed.
End DocFacts.

(* ===================================================================== *)
(** ** The orchestrator *)
(* ===================================================================== *)

Section PipelineFacts.
Import Sys VerilogAIAgent.

Variable generator_generate :
  string -> string -> option string -> bool -> M unit.
Variable markdown_markdown : string -> string.
Variable yaml_dump : DocGenerator.yaml -> string.

(** The generation stage fails exactly when the generator does. *)
Lemma generate_design_raises (self : t) (description : string)
    (module_name : option string) (w w' : world) (e : exn) :
  generator_generate description (output_dir self) module_name true
    {| fs := fs w;
       log := log w ++ [(INFO, "Stage 1: Generating Verilog design...")] |}
  = (Raise e, w') ->
  generate_design generator_generate self description module_name w
  = (Raise e, w').
Proof.
  intros H. unfold generate_design, bind, logger. rewrite H. reflexivity.
Qed.

(** C6.  When the generation stage raises [e], [process_design] raises
    the same [e] and returns no report; the world it leaves is the one
    the generation stage left, with one more log record, the error
    message: none of the later stages has run (each of them would have
    logged its "Stage n" record first) and no file has been written. *)
Theorem generation_failure_aborts (self : t) (description : string)
    (module_name : option string) (w w' : world) (e : exn) :
  generate_design generator_generate self description module_name w
  = (Raise e, w') ->
  process_design generator_generate markdown_markdown yaml_dump self
    description module_name w
  = (Raise e,
     {| fs := fs w';
        log := log w' ++ [(ERROR, "Design processing failed: " +:+ str e)] |}).
Proof.
  intros H.
  unfold process_design, try_except, process_design_body, bind.
  rewrite H. reflexivity.
Qed.
End PipelineFacts.


Section PipelineRuns.
Import Sys VerilogAIAgent.

Lemma generation_failure_aborts_witness :
  process_design failing_generator (fun s => s) (fun _ => "")
    {| output_dir := "test_output" |} "a 4-bit counter" (Some "counter")
    empty_output
  = (Raise (Exception "No valid design plan generated"),
     {| fs := {[ "test_output" := Dir ]};
        log := [(INFO, "Stage 1: Generating Verilog design...");
                (ERROR, "Generation failed: No valid design plan generated");
                (ERROR, "Design processing failed: No valid design plan generated")] |}).
Proof.
  exact (generation_failure_aborts failing_generator (fun s => s)
           (fun _ => "") {| output_dir := "test_output" |}
           "a 4-bit counter" (Some "counter") empty_output
           {| fs := {[ "test_output" := Dir ]};
              log := [(INFO, "Stage 1: Generating Verilog design...");
                      (ERROR, "Generation failed: No valid design plan generated")] |}
           (Exception "No valid design plan generated") eq_refl).
Defined.

(** With a generator that delivers the counter, the four stages run in
    order and the artifacts are where the report says. *)
Example pipeline_runs :
  let run :=
    process_design counter_generator (fun s => s) (fun _ => "")
      {| output_dir := "test_output" |} "a 4-bit counter" (Some "counter")
      empty_output in
  (exists r,
      fst run = Ok r
      /\ optimized (files r) = "test_output/counter_optimized.v"
      /\ documentation (files r)
         = [("markdown", "test_output/docs/documentation.markdown");
            ("html", "test_output/docs/documentation.html");
            ("yaml", "test_output/docs/documentation.yaml")])
  /\ log (snd run)
     = [(INFO, "Stage 1: Generating Verilog design...");
        (INFO, "Design generated: test_output/counter.v");
        (INFO, "Testbench generated: test_output/counter_tb.sv");
        (INFO, "Stage 2: Optimizing design...");
        (INFO, "Design optimized: test_output/counter_optimized.v");
        (INFO, "Stage 3: Verifying design...");
        (INFO, "Design verification completed");
        (INFO, "Stage 4: Generating documentation...");
        (INFO, "Documentation generated")]
  /\ fs (snd run) !! "test_output/counter_optimized.v"
     = Some (File counter_source).
Proof.
  cbv zeta. split; [|split].
  - eexists. split; [vm_compute; reflexivity|]. split; reflexivity.
  - vm_compute. reflexivity.
  - vm_compute. reflexivity.
Qed.
End PipelineRuns.

(* ===================================================================== *)
(** ** The request handlers and their temporary files *)
(* ===================================================================== *)

Section MonadFacts.
Import Sys.
Context {A B : Type}.

Lemma bind_Ok (m : M A) (k : A -> M B) (w w' : world) (b : B) :
  bind m k w = (Ok b, w') ->
  exists a w1, m w = (Ok a, w1) /\ k a w1 = (Ok b, w').
Proof.
  unfold bind. destruct (m w) as [[a|e] w1]; intros H.
  - exists a, w1. split; [reflexivity|exact H].
  - discriminate.
Qed.

Lemma bind_Raise (m : M A) (k : A -> M B) (w w' : world) (e : exn) :
  bind m k w = (Raise e, w') ->
  m w = (Raise e, w')
  \/ exists a w1, m w = (Ok a, w1) /\ k a w1 = (Raise e, w').
Proof.
  unfold bind. destruct (m w) as [[a|e0] w1]; intros H.
  - right. exists a, w1. split; [reflexivity|exact H].
  - left. injection H as -> ->. reflexivity.
Qed.

Lemma try_except_Ok (body : M A) (handler : exn -> M A) (w w' : world)
    (a : A) :
  (forall e w1 a' w2, handler e w1 <> (Ok a', w2)) ->
  try_except body handler w = (Ok a, w') ->
  body w = (Ok a, w').
Proof.
  intros Hh. unfold try_except.
  destruct (body w) as [[a0|e] w1]; intros H.
  - exact H.
  - exfalso. exact (Hh _ _ _ _ H).
Qed.

Lemma try_except_Raise (body : M A) (handler : exn -> M A) (w w' : world)
    (e : exn) :
  try_except body handler w = (Raise e, w') ->
  exists e0 w1, body w = (Raise e0, w1) /\ handler e0 w1 = (Raise e, w').
Proof.
  unfold try_except. destruct (body w) as [[a0|e0] w1]; intros H.
  - discriminate.
  - exists e0, w1. split; [reflexivity|exact H].
Qed.
End MonadFacts.

Section FileSystemFacts.
Import Sys.

Lemma write_text_Ok (path content : string) (w w' : world) (u : unit) :
  write_text path content w = (Ok u, w') ->
  fs w' = <[path := File content]> (fs w).
Proof.
  unfold write_text.
  destruct (fs w !! path) as [[c|]|];
    destruct (parent_is_dir path (fs w)); intros H; try discriminate;
    injection H as _ <-; reflexivity.
Qed.

Lemma write_text_Raise (path content : string) (w w' : world) (e : exn) :
  write_text path content w = (Raise e, w') -> w' = w.
Proof.
  unfold write_text.
  destruct (fs w !! path) as [[c|]|];
    destruct (parent_is_dir path (fs w)); intros H; try discriminate;
    injection H as _ <-; reflexivity.
Qed.

Lemma write_text_succeeds (path content : string) (w : world) :
  parent_is_dir path (fs w) = true ->
  fs w !! path <> Some Dir ->
  exists w', write_text path content w = (Ok tt, w').
Proof.
  intros Hp Hd. unfold write_text. rewrite Hp.
  destruct (fs w !! path) as [[c|]|]; try congruence; eexists; reflexivity.
Qed.

Lemma unlink_Ok (path : string) (w w' : world) (u : unit) :
  unlink path w = (Ok u, w') -> fs w' = delete path (fs w).
Proof.
  unfold unlink. destruct (fs w !! path) as [[content|]|]; intros H;
    try discriminate.
  injection H as _ <-. reflexivity.
Qed.

Lemma unlink_Raise (path : string) (w w' : world) (e : exn) :
  unlink path w = (Raise e, w') ->
  forall content, fs w !! path <> Some (File content).
Proof.
  unfold unlink. destruct (fs w !! path) as [[c|]|]; intros H content;
    try discriminate.
Qed.

(** The optimisation stage writes one file, the optimised source, and
    touches nothing else, whether it returns or raises. *)
Lemma optimize_stage_frame (self : VerilogAIAgent.t) (verilog_file : string)
    (w w' : world) (r : result VerilogAIAgent.OptimizationResults) :
  VerilogAIAgent.optimize_design self verilog_file w = (r, w') ->
  forall path,
    path <> joinpath (VerilogAIAgent.output_dir self)
              (stem verilog_file +:+ "_optimized.v") ->
    fs w' !! path = fs w !! path.
Proof.
  intros H path Hne. revert H.
  unfold VerilogAIAgent.optimize_design, DesignOptimizer.init, bind, logger,
    read_text, ret.
  cbn [fs log].
  destruct (fs w !! verilog_file) as [[content|]|].
  - match goal with
    | |- context [write_text ?p ?c ?w0] =>
        destruct (write_text p c w0) as [[u|e] w1] eqn:E
    end.
    + apply write_text_Ok in E. cbn [fs] in E.
      intros H. injection H as _ <-. rewrite E.
      apply lookup_insert_ne. congruence.
    + apply write_text_Raise in E. subst w1.
      intros H. injection H as _ <-. reflexivity.
  - intros H. injection H as _ <-. reflexivity.
  - intros H. injection H as _ <-. reflexivity.
Qed.
End FileSystemFacts.

Section HandlerFacts.
Import Sys McpVerilogAgent.

Lemma handler_raises {A : Type} (prefix : string) (e : exn) (w1 w2 : world)
    (a : A) :
  bind (logger ERROR (prefix +:+ str e))
       (fun _ => raise (HTTPException 500 (str e))) w1
  <> (Ok a, w2).
Proof. unfold bind, logger, raise. discriminate. Qed.

Lemma handler_keeps_files {A : Type} (prefix : string) (e e' : exn)
    (w1 w2 : world) :
  bind (logger ERROR (prefix +:+ str e))
       (fun _ => @raise A (HTTPException 500 (str e))) w1
  = (Raise e', w2) ->
  e' = HTTPException 500 (str e) /\ fs w2 = fs w1.
Proof.
  unfold bind, logger, raise. intros H. injection H as <- <-. auto.
Qed.

(** When [POST /design/optimize] succeeds, [temp.v] is gone. *)
Lemma optimize_design_success_cleans (verilog_code : string) (w w' : world)
    (r : VerilogAIAgent.OptimizationResults) :
  optimize_design verilog_code w = (Ok r, w') ->
  fs w' !! "mcp_output/temp.v" = None.
Proof.
  intros H. unfold optimize_design in H.
  apply try_except_Ok in H; [|intros; apply handler_raises].
  apply bind_Ok in H as (u1 & w1 & _ & H).
  apply bind_Ok in H as (r1 & w2 & _ & H).
  apply bind_Ok in H as (u2 & w3 & Hunlink & H).
  injection H as _ <-.
  rewrite (unlink_Ok _ _ _ _ Hunlink).
  apply lookup_delete_eq.
Qed.

(** When [POST /design/verify] succeeds, both temporary files are gone. *)
Lemma verify_design_success_cleans (verilog_code testbench : string)
    (w w' : world) (r : VerilogAIAgent.VerificationResults) :
  verify_design verilog_code testbench w = (Ok r, w') ->
  fs w' !! "mcp_output/temp.v" = None
  /\ fs w' !! "mcp_output/temp_tb.sv" = None.
Proof.
  intros H. unfold verify_design in H.
  apply try_except_Ok in H; [|intros; apply handler_raises].
  apply bind_Ok in H as (u1 & w1 & _ & H).
  apply bind_Ok in H as (u2 & w2 & _ & H).
  apply bind_Ok in H as (r1 & w3 & _ & H).
  apply bind_Ok in H as (u3 & w4 & Hunlink1 & H).
  apply bind_Ok in H as (u4 & w5 & Hunlink2 & H).
  injection H as _ <-.
  rewrite (unlink_Ok _ _ _ _ Hunlink2), (unlink_Ok _ _ _ _ Hunlink1).
  split.
  - rewrite lookup_delete_ne by discriminate. apply lookup_delete_eq.
  - apply lookup_delete_eq.
Qed.

(** Whenever [POST /design/optimize] fails after it has written [temp.v],
    the file stays, with the submitted source in it. *)
Lemma optimize_design_failure_leaves_temp (verilog_code : string)
    (w w' : world) (e : exn) :
  fs w !! "mcp_output" = Some Dir ->
  fs w !! "mcp_output/temp.v" <> Some Dir ->
  optimize_design verilog_code w = (Raise e, w') ->
  fs w' !! "mcp_output/temp.v" = Some (File verilog_code).
Proof.
  intros Hdir Hnot H. unfold optimize_design in H.
  apply try_except_Raise in H as (e0 & w3 & Hbody & Hh).
  apply handler_keeps_files in Hh as [_ ->].
  change (joinpath "mcp_output" "temp.v") with "mcp_output/temp.v" in Hbody.
  destruct (write_text_succeeds "mcp_output/temp.v" verilog_code w)
    as (w1 & Hw1).
  { unfold parent_is_dir.
    change (parent "mcp_output/temp.v") with "mcp_output".
    cbv beta iota. rewrite Hdir. reflexivity. }
  { exact Hnot. }
  assert (Htemp : fs w1 !! "mcp_output/temp.v" = Some (File verilog_code)).
  { rewrite (write_text_Ok _ _ _ _ _ Hw1). apply lookup_insert_eq. }
  apply bind_Raise in Hbody as [Hw | (u & w1' & Hw & Hrest)];
    [congruence|].
  rewrite Hw1 in Hw. injection Hw as _ <-.
  apply bind_Raise in Hrest as [Ha | (r & w2 & Ha & Hrest)].
  - rewrite (optimize_stage_frame _ _ _ _ _ Ha); [exact Htemp|discriminate].
  - apply bind_Raise in Hrest as [Hu | (u2 & w4 & _ & Hret)];
      [|discriminate].
    exfalso. apply (unlink_Raise _ _ _ _ Hu verilog_code).
    rewrite (optimize_stage_frame _ _ _ _ _ Ha); [exact Htemp|discriminate].
Qed.
(** C7.  When the analyser call raises, the handlers convert the
    exception and return without removing what they wrote: after a failed
    [POST /design/optimize] the file [temp.v] is still there with the
    submitted source, and after a failed [POST /design/verify] both
    [temp.v] and [temp_tb.sv] are.  The [unlink] calls sit on the success
    path only. *)
Theorem temp_files_left_on_failure :
  (fst (optimize_design counter_source blocked_optimized_file)
   = Raise (HTTPException 500
              "[Errno 21] Is a directory: 'mcp_output/temp_optimized.v'")
   /\ fs (snd (optimize_design counter_source blocked_optimized_file))
      !! "mcp_output/temp.v"
      = Some (File counter_source))
  /\ (fst (verify_design counter_source counter_testbench
             blocked_assertions_file)
      = Raise (HTTPException 500
                 "[Errno 21] Is a directory: 'mcp_output/temp_assertions.sv'")
      /\ fs (snd (verify_design counter_source counter_testbench
                    blocked_assertions_file))
         !! "mcp_output/temp.v"
         = Some (File counter_source)
      /\ fs (snd (verify_design counter_source counter_testbench
                    blocked_assertions_file))
         !! "mcp_output/temp_tb.sv"
         = Some (File counter_testbench)).
Proof.
  split; [split|split; [|split]].
  - vm_compute. reflexivity.
  - vm_compute. reflexivity.
  - vm_compute. reflexivity.
  - vm_compute. reflexivity.
  - vm_compute. reflexivity.
Qed.

(** The same request in a writable output directory succeeds and leaves
    no [temp.v] behind. *)
Example optimize_design_cleans_on_success :
  (exists r,
      fst (optimize_design counter_source
             {| fs := {[ "mcp_output" := Dir ]}; log := [] |})
      = Ok r)
  /\ fs (snd (optimize_design counter_source
                {| fs := {[ "mcp_output" := Dir ]}; log := [] |}))
     !! "mcp_output/temp.v"
     = None.
Proof.
  split.
  - eexists. vm_compute. reflexivity.
  - vm_compute. reflexivity.
Qed.
End HandlerFacts.

(* ===================================================================== *)
(** ** Further properties of the verification analyser *)
(* ===================================================================== *)

Section VerifierMore.
Import Re DesignVerifier.

(** C4's counterpart for the functional dimension: no covergroup in the
    testbench gives coverage 0.0 and "No coverage groups defined";
    [N >= 1] covergroups give [min(100.0, N * 25.0)]; a testbench without
    coverpoint gets "No coverage points defined" either way. *)
Theorem functional_coverage_contract (self : t) :
  let N := covergroup_count (testbench_content self) in
  let r := verify_functional_coverage self in
  (N = 0 ->
     coverage r = 0%Q /\ In "No coverage groups defined" (issues r))
  /\ (1 <= N -> (coverage r == Qmin 100 (inject_Z (Z.of_nat N) * 25))%Q)
  /\ (found coverpoint_re (testbench_content self) = false ->
      In "No coverage points defined" (issues r)).
Proof.
  cbv zeta. unfold covergroup_count. split; [|split].
  - intros H. apply found_false_iff in H.
    unfold verify_functional_coverage. rewrite H. simpl.
    destruct (negb (found coverpoint_re (testbench_content self)));
      simpl; auto.
  - intros H. apply found_true_iff in H.
    unfold verify_functional_coverage. rewrite H. simpl.
    destruct (negb (found coverpoint_re (testbench_content self)));
      apply Py_min_Qmin.
  - intros H. unfold verify_functional_coverage. rewrite H.
    destruct (negb (found covergroup_re (testbench_content self)));
      simpl; auto.
Qed.

Lemma functional_coverage_contract_witness :
  (coverage (verify_functional_coverage two_covergroups)
   == Qmin 100
        (inject_Z (Z.of_nat (covergroup_count
                               (testbench_content two_covergroups))) * 25))%Q
  /\ In "No coverage groups defined"
       (issues (verify_functional_coverage bare_testbench)).
Proof.
  destruct (functional_coverage_contract two_covergroups) as (_ & H1 & _).
  destruct (functional_coverage_contract bare_testbench) as (H0 & _ & _).
  split.
  - apply H1. apply (Nat.leb_le 1 2). reflexivity.
  - apply H0. reflexivity.
Defined.

(** The same for the assertion dimension: 10.0 per [assert], and a
    testbench without [##n] or [@(posedge] gets
    "No temporal assertions defined". *)
Theorem assertion_coverage_contract (self : t) :
  let N := assertion_count (testbench_content self) in
  let r := verify_assertions self in
  (N = 0 -> coverage r = 0%Q /\ In "No assertions defined" (issues r))
  /\ (1 <= N -> (coverage r == Qmin 100 (inject_Z (Z.of_nat N) * 10))%Q)
  /\ (found temporal_re (testbench_content self) = false ->
      In "No temporal assertions defined" (issues r)).
Proof.
  cbv zeta. unfold assertion_count. split; [|split].
  - intros H. apply found_false_iff in H.
    unfold verify_assertions. rewrite H. simpl.
    destruct (negb (found temporal_re (testbench_content self)));
      simpl; auto.
  - intros H. apply found_true_iff in H.
    unfold verify_assertions. rewrite H. simpl.
    destruct (negb (found temporal_re (testbench_content self)));
      apply Py_min_Qmin.
  - intros H. unfold verify_assertions. rewrite H.
    destruct (negb (found assert_re (testbench_content self)));
      simpl; auto.
Qed.

Lemma assertion_coverage_contract_witness :
  (coverage (verify_assertions two_assertions)
   == Qmin 100
        (inject_Z (Z.of_nat (assertion_count
                               (testbench_content two_assertions))) * 10))%Q
  /\ In "No temporal assertions defined"
       (issues (verify_assertions bare_testbench)).
Proof.
  destruct (assertion_coverage_contract two_assertions) as (_ & H1 & _).
  destruct (assertion_coverage_contract bare_testbench) as (_ & _ & H2).
  split.
  - apply H1. apply (Nat.leb_le 1 2). reflexivity.
  - apply H2. reflexivity.
Defined.

(** Every issue comes with one suggestion, in each of the four
    dimensions, so the two totals of the report are equal. *)
Lemma issues_suggestions_paired (dimension : VerificationType) (self : t) :
  length (issues (verify dimension self))
  = length (suggestions (verify dimension self)).
Proof.
  destruct dimension; simpl.
  - unfold verify_formal_properties.
    destruct (negb (found property_re _)); destruct (negb (found assume_re _));
      reflexivity.
  - unfold verify_functional_coverage.
    destruct (negb (found covergroup_re _));
      destruct (negb (found coverpoint_re _)); reflexivity.
  - unfold verify_assertions.
    destruct (negb (found assert_re _)); destruct (negb (found temporal_re _));
      reflexivity.
  - unfold verify_code_coverage.
    destruct (Py.ltb _ 80); destruct (_ && _); reflexivity.
Qed.

Lemma at_most_two_issues (dimension : VerificationType) (self : t) :
  length (issues (verify dimension self)) <= 2.
Proof.
  destruct dimension; simpl.
  - unfold verify_formal_properties.
    destruct (negb (found property_re _)); destruct (negb (found assume_re _));
      simpl; lia.
  - unfold verify_functional_coverage.
    destruct (negb (found covergroup_re _));
      destruct (negb (found coverpoint_re _)); simpl; lia.
  - unfold verify_assertions.
    destruct (negb (found assert_re _)); destruct (negb (found temporal_re _));
      simpl; lia.
  - unfold verify_code_coverage.
    destruct (Py.ltb _ 80); destruct (_ && _); simpl; lia.
Qed.

(** The report of [verify_all] lists as many suggestions as issues, at
    most two per dimension. *)
Theorem verification_totals_equal (self : t) :
  exists rep,
    verify_all self = Sys.Ok rep
    /\ total_issues (summary rep) = total_suggestions (summary rep)
    /\ total_issues (summary rep) <= 8.
Proof.
  destruct (report_of_four (verify_formal_properties self)
              (verify_functional_coverage self) (verify_assertions self)
              (verify_code_coverage self))
    as (rep & Hrep & Hi & Hs & _).
  exists rep. split; [exact Hrep|].
  pose proof (issues_suggestions_paired FORMAL self) as H1.
  pose proof (issues_suggestions_paired FUNCTIONAL self) as H2.
  pose proof (issues_suggestions_paired ASSERTION self) as H3.
  pose proof (issues_suggestions_paired COVERAGE self) as H4.
  pose proof (at_most_two_issues FORMAL self) as B1.
  pose proof (at_most_two_issues FUNCTIONAL self) as B2.
  pose proof (at_most_two_issues ASSERTION self) as B3.
  pose proof (at_most_two_issues COVERAGE self) as B4.
  simpl in *. rewrite Hi, Hs. lia.
Qed.
End VerifierMore.

Section CodeCoverageMore.
Import Re DesignVerifier.

(** With at least one [;] in the source, the code coverage stays within
    100 exactly when the testbench has no more covered statements than the
    source has statements. *)
Theorem code_coverage_le_100_iff (self : t) :
  0 < statements self ->
  ((coverage (verify_code_coverage self) <= 100)%Q
   <-> covered_statements self <= statements self).
Proof.
  intros Hpos. rewrite code_coverage_value. unfold statement_coverage.
  destruct (Nat.ltb_spec 0 (statements self)) as [_|Hle]; [|lia].
  unfold Py.float_of_nat, Qle, Qmult, Qdiv, Qinv, inject_Z. simpl.
  destruct (Z.of_nat (statements self)) as [|p|p] eqn:E; try lia.
  simpl. split; intros H; nia.
Qed.

Lemma code_coverage_le_100_iff_witness :
  (coverage (verify_code_coverage (verifier "a; b;" "if c;")) <= 100)%Q
  <-> covered_statements (verifier "a; b;" "if c;")
      <= statements (verifier "a; b;" "if c;").
Proof.
  apply (code_coverage_le_100_iff (verifier "a; b;" "if c;")).
  apply (Nat.ltb_lt 0 2). reflexivity.
Defined.


Lemma Py_sum_nat_list_sum (xs : list nat) : Py.sum_nat xs = list_sum xs.
Proof.
  unfold Py.sum_nat.
  assert (H : forall a, fold_left Nat.add xs a = a + list_sum xs).
  { induction xs as [|x xs IH]; intros a; simpl; [lia|].
    rewrite IH. lia. }
  apply H.
Qed.

(** [generate_verification_report] divides by the number of results: an
    empty dictionary raises [ZeroDivisionError]; any other yields a report
    with one entry per key, in the order of the keys, whose totals are the
    sums over the results and whose [all_passed] holds exactly when every
    result passed. *)
Theorem report_of_results (results : list (string * VerificationResult)) :
  (results = [] ->
   generate_verification_report results = Sys.Raise Sys.ZeroDivisionError)
  /\ (results <> [] ->
      exists rep,
        generate_verification_report results = Sys.Ok rep
        /\ map fst (verifications rep) = map fst results
        /\ total_issues (summary rep)
           = list_sum (map (fun kv => length (issues (snd kv))) results)
        /\ total_suggestions (summary rep)
           = list_sum (map (fun kv => length (suggestions (snd kv))) results)
        /\ (all_passed (summary rep) = true
            <-> forall key r, In (key, r) results -> passed r = true)).
Proof.
  split.
  - intros ->. reflexivity.
  - intros Hne. destruct results as [|kv results]; [congruence|].
    eexists. split; [reflexivity|].
    cbn [summary verifications total_issues total_suggestions all_passed].
    split; [|split; [|split]].
    + rewrite map_map. apply map_ext. intros [k v]. reflexivity.
    + rewrite Py_sum_nat_list_sum. unfold Dict.values.
      rewrite map_map. reflexivity.
    + rewrite Py_sum_nat_list_sum. unfold Dict.values.
      rewrite map_map. reflexivity.
    + unfold Py.all, Dict.values. rewrite forallb_forall. split.
      * intros H key r Hin. apply H.
        apply in_map_iff. exists r. split; [reflexivity|].
        apply in_map_iff. exists (key, r). auto.
      * intros H b Hb. apply in_map_iff in Hb as (r & <- & Hr).
        apply in_map_iff in Hr as ([key r'] & <- & Hin).
        apply (H key r' Hin).
Qed.

Lemma report_of_results_witness :
  generate_verification_report [] = Sys.Raise Sys.ZeroDivisionError
  /\ exists rep,
       generate_verification_report (results_of two_properties) = Sys.Ok rep
       /\ map fst (verifications rep)
          = ["formal"; "functional"; "assertion"; "coverage"].
Proof.
  destruct (report_of_results []) as [H0 _].
  destruct (report_of_results (results_of two_properties)) as [_ H1].
  split; [apply H0; reflexivity|].
  destruct H1 as (rep & Hrep & Hkeys & _); [discriminate|].
  exists rep. split; [exact Hrep|exact Hkeys].
Defined.
End CodeCoverageMore.

(* ===================================================================== *)
(** ** Literal patterns and alternatives *)
(* ===================================================================== *)

Section LiteralFacts.
Import Re.

Lemma run_Lit_eq {A : Type} (w : string) (s : text) (caps : captures)
    (k : text -> captures -> option A) :
  run (Lit w) s caps k
  = if Py.startswith w (string_of_list_ascii s)
    then k (skipn (String.length w) s) caps else None.
Proof.
  revert s. induction w as [|c w IH]; intros s.
  - destruct s; reflexivity.
  - destruct s as [|c0 s]; [reflexivity|].
    cbn [Lit run string_of_list_ascii Py.startswith String.length skipn].
    unfold one. destruct (Ascii.eqb c c0); [apply IH|reflexivity].
Qed.

(** Searching for a literal is the substring test. *)
Lemma found_Lit (w s : string) : found (Lit w) s = Py.contains w s.
Proof.
  unfold found, search. induction s as [|c s IH].
  - cbn [list_ascii_of_string search_chars]. unfold match_here.
    rewrite run_Lit_eq. cbn [string_of_list_ascii Py.contains].
    destruct (Py.startswith w ""); reflexivity.
  - cbn [list_ascii_of_string search_chars]. unfold match_here.
    rewrite run_Lit_eq. cbn [string_of_list_ascii].
    rewrite string_of_list_ascii_of_string. cbn [Py.contains].
    destruct (Py.startswith w (String c s)); [reflexivity|].
    cbn [andb orb]. exact IH.
Qed.

(** An alternative is found where one of its branches is. *)
Lemma match_here_Alt (r1 r2 : regex) (s : text) :
  match_here (Alt r1 r2) s false = None
  <-> match_here r1 s false = None /\ match_here r2 s false = None.
Proof.
  unfold match_here. cbn [run].
  destruct (run r1 s [] _) as [x|]; split.
  - discriminate.
  - intros [H _]. discriminate.
  - intros H. split; [reflexivity|exact H].
  - intros [_ H]. exact H.
Qed.

Lemma found_Alt (r1 r2 : regex) (s : string) :
  found (Alt r1 r2) s = found r1 s || found r2 s.
Proof.
  unfold found, search.
  induction (list_ascii_of_string s) as [|c l IH].
  - cbn [search_chars].
    pose proof (match_here_Alt r1 r2 []) as [H1 H2].
    destruct (match_here (Alt r1 r2) [] false) as [[n m]|];
      destruct (match_here r1 [] false) as [[n1 m1]|];
      destruct (match_here r2 [] false) as [[n2 m2]|];
      first [ reflexivity
            | discriminate (proj1 (H1 eq_refl))
            | discriminate (proj2 (H1 eq_refl))
            | discriminate (H2 (conj eq_refl eq_refl)) ].
  - cbn [search_chars].
    pose proof (match_here_Alt r1 r2 (c :: l)) as [H1 H2].
    destruct (match_here (Alt r1 r2) (c :: l) false) as [[n m]|];
      destruct (match_here r1 (c :: l) false) as [[n1 m1]|];
      destruct (match_here r2 (c :: l) false) as [[n2 m2]|];
      first [ reflexivity
            | symmetry; apply orb_true_r
            | exact IH
            | discriminate (proj1 (H1 eq_refl))
            | discriminate (proj2 (H1 eq_refl))
            | discriminate (H2 (conj eq_refl eq_refl)) ].
Qed.
End LiteralFacts.

(* ===================================================================== *)
(** ** The generated assertions and coverage model *)
(* ===================================================================== *)

Section GeneratedText.
Import Re DesignVerifier.

(** [generate_coverage_model] is keyed on the bare substrings "state" and
    "data": it returns the empty text exactly when the source contains
    neither of them, wherever they might stand. *)
Theorem coverage_model_empty_iff (self : t) :
  generate_coverage_model self = ""
  <-> Py.contains "state" (verilog_content self) = false
      /\ Py.contains "data" (verilog_content self) = false.
Proof.
  unfold generate_coverage_model. rewrite !found_Lit.
  destruct (Py.contains "state" (verilog_content self));
    destruct (Py.contains "data" (verilog_content self));
    split; intros H; try reflexivity;
    first [ discriminate H
          | discriminate (proj1 H)
          | discriminate (proj2 H)
          | split; reflexivity ].
Qed.

(** With both substrings in the source the model is the state covergroup,
    a newline and the data covergroup, in this order. *)
Theorem coverage_model_both (self : t) :
  Py.contains "state" (verilog_content self) = true ->
  Py.contains "data" (verilog_content self) = true ->
  generate_coverage_model self
  = state_coverage_block +:+ DocGenerator.nl +:+ data_coverage_block.
Proof.
  intros H1 H2. unfold generate_coverage_model.
  rewrite !found_Lit, H1, H2. reflexivity.
Qed.

Lemma coverage_model_both_witness :
  generate_coverage_model
    (verifier "reg [1:0] state; reg [7:0] data;" "")
  = state_coverage_block +:+ DocGenerator.nl +:+ data_coverage_block.
Proof.
  apply (coverage_model_both (verifier "reg [1:0] state; reg [7:0] data;" ""));
    reflexivity.
Defined.

(** [generate_assertions] emits the pipeline assertion for every source
    with a clocked block and the reset assertion only when an [input]
    is followed on its line by "reset"; a source with neither gets the
    empty text. *)
Theorem assertions_by_case (self : t) :
  generate_assertions self
  = match found reset_port_re (verilog_content self),
          found always_re (verilog_content self) with
    | true, true =>
        reset_assertion_block +:+ DocGenerator.nl +:+ pipeline_assertion_block
    | true, false => reset_assertion_block
    | false, true => pipeline_assertion_block
    | false, false => ""
    end.
Proof.
  unfold generate_assertions.
  destruct (found reset_port_re (verilog_content self));
    destruct (found always_re (verilog_content self)); reflexivity.
Qed.

(** The counter has a clocked block and its reset port is [rst_n], which
    the pattern [input.*reset] does not see: only the pipeline assertion
    is generated. *)
Example counter_assertions :
  generate_assertions (verifier counter_source counter_testbench)
  = pipeline_assertion_block.
Proof. vm_compute. reflexivity. Qed.
End GeneratedText.

(* ===================================================================== *)
(** ** Further properties of the optimisation analyser *)
(* ===================================================================== *)

Section OptimizerMore.
Import Re DesignOptimizer.

(** The performance metrics: the depth is the number of clocked blocks,
    the suggested depth one more; pipeline balancing is suggested exactly
    when there is a clocked block, and long combinational paths are only
    reported for a source that has one. *)
Theorem performance_metrics (self : t) :
  let N := pipeline_stages (verilog_content self) in
  let r := analyze_performance self in
  original_metrics r = [("pipeline_depth", MInt (Z.of_nat N))]
  /\ optimized_metrics r
     = [("suggested_pipeline_depth", MInt (Z.of_nat N + 1))]
  /\ (In "Consider pipeline balancing for optimal performance"
         (suggested_changes r) <-> 1 <= N)
  /\ (In "Long combinational paths detected" (improvements r) -> 1 <= N).
Proof.
  cbv zeta. unfold pipeline_stages, analyze_performance.
  destruct (found always_re (verilog_content self)) eqn:E.
  - apply found_true_iff in E.
    destruct (Nat.ltb_spec 0 (length (findall always_re (verilog_content self))))
      as [Hlt|Hge]; [|lia].
    destruct (found nested_if_re (verilog_content self));
      cbn [original_metrics optimized_metrics suggested_changes improvements];
      (split; [reflexivity|]); (split; [reflexivity|]); split.
    + split; [intros _; exact E|]. intros _. simpl. auto.
    + intros _. exact E.
    + split; [intros _; exact E|]. intros _. simpl. auto.
    + intros _. exact E.
  - apply found_false_iff in E. rewrite E.
    cbn [Nat.ltb Nat.leb original_metrics optimized_metrics suggested_changes
         improvements].
    split; [reflexivity|]. split; [reflexivity|]. split.
    + split; [intros []|lia].
    + intros [].
Qed.

(** The area metrics: the suggested register count is
    [max(1, count - 1)], so it is never below 1; for a design without a
    sized register it is 1, more than the design has. *)
Theorem area_metrics (self : t) :
  let N := reg_count (verilog_content self) in
  let r := analyze_area self in
  original_metrics r = [("register_count", MInt (Z.of_nat N))]
  /\ exists k,
       optimized_metrics r = [("suggested_register_count", MInt k)]
       /\ (1 <= k)%Z
       /\ (2 <= N -> k = (Z.of_nat N - 1)%Z)
       /\ (N <= 1 -> k = 1%Z).
Proof.
  cbv zeta. unfold reg_count, analyze_area.
  set (N := length (findall reg_re (verilog_content self))).
  destruct (Nat.ltb 0 N); destruct (found wires_re (verilog_content self));
    cbn [original_metrics optimized_metrics];
    (split; [reflexivity|]);
    exists (Py.max_int 1 (Z.of_nat N - 1)); (split; [reflexivity|]);
    unfold Py.max_int; destruct (Z.ltb_spec 1 (Z.of_nat N - 1)); lia.
Qed.
(** The clock-gating finding in terms of the source text: it is reported
    exactly for a source with a clocked block in which none of the words
    [clock_en], [clk_en], [gated_clk] occurs. *)
Theorem clock_gating_finding (self : t) :
  In "No clock gating detected" (improvements (analyze_power self))
  <-> 1 <= pipeline_stages (verilog_content self)
      /\ Py.contains "clock_en" (verilog_content self) = false
      /\ Py.contains "clk_en" (verilog_content self) = false
      /\ Py.contains "gated_clk" (verilog_content self) = false.
Proof.
  unfold analyze_power, pipeline_stages, gating_re.
  rewrite !found_Alt, !found_Lit.
  destruct (found always_re (verilog_content self)) eqn:E.
  - apply found_true_iff in E.
    destruct (Py.contains "clock_en" (verilog_content self));
      destruct (Py.contains "clk_en" (verilog_content self));
      destruct (Py.contains "gated_clk" (verilog_content self));
      destruct (found reg_re (verilog_content self));
      destruct (found enable_re (verilog_content self));
      cbn [orb negb improvements app In];
      intuition (first [discriminate | assumption]).
  - apply found_false_iff in E. rewrite E.
    destruct (found reg_re (verilog_content self));
      destruct (found enable_re (verilog_content self));
      cbn [orb negb improvements app In];
      intuition (first [discriminate | lia]).
Qed.

Lemma improvements_suggestions_paired (self : t) :
  length (improvements (analyze_performance self))
  = length (suggested_changes (analyze_performance self))
  /\ length (improvements (analyze_area self))
     = length (suggested_changes (analyze_area self))
  /\ length (improvements (analyze_power self))
     = length (suggested_changes (analyze_power self))
  /\ length (improvements (analyze_timing self))
     = length (suggested_changes (analyze_timing self)).
Proof.
  split; [|split; [|split]].
  - unfold analyze_performance.
    destruct (found nested_if_re (verilog_content self));
      destruct (found always_re (verilog_content self));
      destruct (Nat.ltb 0 _); reflexivity.
  - unfold analyze_area.
    destruct (found wires_re (verilog_content self));
      destruct (Nat.ltb 0 _); reflexivity.
  - unfold analyze_power.
    destruct (found gating_re (verilog_content self));
      destruct (found always_re (verilog_content self));
      destruct (found enable_re (verilog_content self));
      destruct (found reg_re (verilog_content self)); reflexivity.
  - unfold analyze_timing.
    destruct (found async_reset_re (verilog_content self));
      destruct (found posedge_re (verilog_content self));
      destruct (found ternary_chain_re (verilog_content self)); reflexivity.
Qed.

(** The optimisation report has the four dimensions in the order
    performance, area, power, timing, and as many suggestions as
    improvements. *)
Theorem optimization_totals_equal (self : t) :
  map fst (optimizations (optimize_all self))
  = ["performance"; "area"; "power"; "timing"]
  /\ total_improvements (summary (optimize_all self))
     = total_suggestions (summary (optimize_all self)).
Proof.
  split; [reflexivity|].
  destruct (improvements_suggestions_paired self) as (H1 & H2 & H3 & H4).
  unfold optimize_all, generate_optimization_report.
  cbn [summary total_improvements total_suggestions Dict.values map snd].
  unfold Py.sum_nat. cbn [fold_left].
  rewrite H1, H2, H3, H4. reflexivity.
Qed.

(** [apply_optimizations] returns the source text for every report,
    also for the report [optimize_all] has just produced for the same
    source, whose suggestions do mention the triggers. *)
Theorem apply_optimizations_identity (self : t) :
  (forall report, apply_optimizations self report = verilog_content self)
  /\ apply_optimizations self (optimize_all self) = verilog_content self.
Proof.
  assert (H : forall report,
             apply_optimizations self report = verilog_content self).
  { intros report. unfold apply_optimizations.
    rewrite (apply_dimension_pass_through "performance"); [|reflexivity].
    rewrite (apply_dimension_pass_through "area"); [|reflexivity].
    apply apply_dimension_pass_through. reflexivity. }
  split; [exact H|apply H].
Qed.
End OptimizerMore.

(* ===================================================================== *)
(** ** Matches and their groups *)
(* ===================================================================== *)

Section CaptureFacts.
Import Re.

Lemma star_greedy_inv {A : Type} (p : cclass) (s : text)
    (k : text -> option A) (x : A) :
  star_greedy p s k = Some x -> exists s', k s' = Some x.
Proof.
  induction s as [|c s IH]; simpl.
  - intros H. exists []. exact H.
  - destruct (p c).
    + destruct (star_greedy p s k) as [y|] eqn:E.
      * intros H. injection H as ->. apply IH. reflexivity.
      * intros H. exists (c :: s). exact H.
    + intros H. exists (c :: s). exact H.
Qed.

Lemma star_lazy_inv {A : Type} (p : cclass) (s : text)
    (k : text -> option A) (x : A) :
  star_lazy p s k = Some x -> exists s', k s' = Some x.
Proof.
  induction s as [|c s IH]; simpl.
  - destruct (k []) as [y|] eqn:E; [|discriminate].
    intros H. injection H as ->. exists []. exact E.
  - destruct (k (c :: s)) as [y|] eqn:E.
    + intros H. injection H as ->. exists (c :: s). exact E.
    + destruct (p c); [exact IH|discriminate].
Qed.

(** A successful run reaches its continuation with the captures it was
    given, below those of the groups of the pattern. *)
Lemma run_captures {A : Type} (r : regex) :
  forall (s : text) (caps : captures) (k : text -> captures -> option A)
         (x : A),
    run r s caps k = Some x ->
    exists s' extra,
      k s' (extra ++ caps) = Some x
      /\ Forall (fun p => In (fst p) (group_ids r)) extra.
Proof.
  induction r as [|p|r1 IH1 r2 IH2|r1 IH1 r2 IH2|p|p|n r1 IH1];
    intros s caps k x H; cbn [run group_ids] in *.
  - exists s, []. split; [exact H|constructor].
  - destruct s as [|c s]; [discriminate|].
    destruct (p c); [|discriminate].
    exists s, []. split; [exact H|constructor].
  - apply IH1 in H as (s1 & e1 & H & F1).
    apply IH2 in H as (s2 & e2 & H & F2).
    exists s2, (e2 ++ e1). split.
    + rewrite <- app_assoc. exact H.
    + apply Forall_app. split.
      * eapply Forall_impl; [exact F2|]. cbv beta. intros a Ha.
        apply in_or_app. right. exact Ha.
      * eapply Forall_impl; [exact F1|]. cbv beta. intros a Ha.
        apply in_or_app. left. exact Ha.
  - destruct (run r1 s caps k) as [y|] eqn:E.
    + injection H as ->. apply IH1 in E as (s1 & e1 & H & F1).
      exists s1, e1. split; [exact H|].
      eapply Forall_impl; [exact F1|]. cbv beta. intros a Ha.
      apply in_or_app. left. exact Ha.
    + apply IH2 in H as (s2 & e2 & H & F2).
      exists s2, e2. split; [exact H|].
      eapply Forall_impl; [exact F2|]. cbv beta. intros a Ha.
      apply in_or_app. right. exact Ha.
  - apply star_greedy_inv in H as (s' & H).
    exists s', []. split; [exact H|constructor].
  - apply star_lazy_inv in H as (s' & H).
    exists s', []. split; [exact H|constructor].
  - apply IH1 in H as (s1 & e1 & H & F1).
    exists s1, ((n, firstn (length s - length s1) s) :: e1).
    split; [exact H|].
    constructor; [left; reflexivity|].
    eapply Forall_impl; [exact F1|]. intros a Ha. right. exact Ha.
Qed.

Lemma lookup_group_below (n : nat) (extra caps : captures) :
  Forall (fun p => fst p <> n) extra ->
  lookup_group n (extra ++ caps) = lookup_group n caps.
Proof.
  induction 1 as [|[m t] extra Hne _ IH]; [reflexivity|].
  cbn [app lookup_group]. simpl in Hne.
  destruct (Nat.eqb_spec n m) as [->|_]; [congruence|exact IH].
Qed.

(** Every match [finditer] yields is an attempt that succeeded
    somewhere. *)
Lemma finditer_chars_In (r : regex) (m : mobj) :
  forall (s : text) (skip : nat),
    In m (finditer_chars r s skip) ->
    exists t b n, match_here r t b = Some (n, m).
Proof.
  induction s as [|c s IH]; intros skip H.
  - destruct skip; cbn [finditer_chars] in H; [|destruct H].
    destruct (match_here r [] false) as [[[|n] m0]|] eqn:E.
    + destruct H as [<-|H]; [exists [], false, 0; exact E|].
      destruct (match_here r [] true) as [[n' m']|] eqn:E';
        [|destruct H].
      destruct H as [<-|[]]. exists [], true, n'. exact E'.
    + destruct H as [<-|[]]. exists [], false, (S n). exact E.
    + destruct H.
  - destruct skip; cbn [finditer_chars] in H; [|apply (IH _ H)].
    destruct (match_here r (c :: s) false) as [[[|n] m0]|] eqn:E.
    + destruct H as [<-|H]; [exists (c :: s), false, 0; exact E|].
      destruct (match_here r (c :: s) true) as [[n' m']|] eqn:E'.
      * destruct H as [<-|H]; [exists (c :: s), true, n'; exact E'|].
        apply (IH _ H).
      * apply (IH _ H).
    + destruct H as [<-|H]; [exists (c :: s), false, (S n); exact E|].
      apply (IH _ H).
    + apply (IH _ H).
Qed.

Lemma startswith_firstn (w : string) (t : text) :
  Py.startswith w (string_of_list_ascii t) = true ->
  firstn (length t - length (skipn (String.length w) t)) t
  = list_ascii_of_string w.
Proof.
  revert t. induction w as [|c w IH]; intros t H.
  - cbn [String.length skipn]. rewrite Nat.sub_diag. reflexivity.
  - destruct t as [|c0 t]; [discriminate|].
    cbn [string_of_list_ascii Py.startswith] in H.
    apply andb_true_iff in H as [Hc H].
    apply Ascii.eqb_eq in Hc. subst c0.
    cbn [String.length skipn list_ascii_of_string].
    specialize (IH t H).
    assert (Hle : length (skipn (String.length w) t) <= length t).
    { rewrite length_skipn. lia. }
    replace (length (c :: t) - length (skipn (String.length w) t))
      with (S (length t - length (skipn (String.length w) t)))
      by (cbn [length]; lia).
    cbn [firstn]. rewrite IH. reflexivity.
Qed.
End CaptureFacts.

Section KeywordFacts.
Import Re.

Lemma run_alt_lits {A : Type} (ws : list string) :
  forall (w : string) (t : text) (caps : captures)
         (k : text -> captures -> option A) (x : A),
    run (alt_lits w ws) t caps k = Some x ->
    exists w0,
      In w0 (w :: ws)
      /\ Py.startswith w0 (string_of_list_ascii t) = true
      /\ k (skipn (String.length w0) t) caps = Some x.
Proof.
  induction ws as [|w' ws IH]; intros w t caps k x H; cbn [alt_lits run] in H.
  - rewrite run_Lit_eq in H.
    destruct (Py.startswith w (string_of_list_ascii t)) eqn:E;
      [|discriminate].
    exists w. split; [left; reflexivity|]. split; [exact E|exact H].
  - rewrite run_Lit_eq in H.
    destruct (Py.startswith w (string_of_list_ascii t)) eqn:E.
    + destruct (k (skipn (String.length w) t) caps) as [y|] eqn:Ek.
      * injection H as ->. exists w.
        split; [left; reflexivity|]. split; [exact E|exact Ek].
      * apply IH in H as (w0 & Hin & Hs & Hk).
        exists w0. split; [right; exact Hin|]. split; [exact Hs|exact Hk].
    + apply IH in H as (w0 & Hin & Hs & Hk).
      exists w0. split; [right; exact Hin|]. split; [exact Hs|exact Hk].
Qed.

(** A pattern that opens with a group of keywords puts the keyword that
    stands at the match into that group. *)
Lemma keyword_group (g : nat) (w : string) (ws : list string) (rest : regex)
    (t : text) (b : bool) (n : nat) (m : mobj) :
  ~ In (S g) (group_ids rest) ->
  match_here (Seq (Group (S g) (alt_lits w ws)) rest) t b = Some (n, m) ->
  exists w0, In w0 (w :: ws) /\ group (S g) m = Some w0.
Proof.
  intros Hg H. unfold match_here in H. cbn [run] in H.
  apply run_alt_lits in H as (w0 & Hin & Hs & H).
  apply run_captures in H as (s' & extra & H & F).
  exists w0. split; [exact Hin|].
  destruct (b && Nat.eqb (length t - length s') 0); [discriminate|].
  injection H as _ <-. cbn [group groups].
  rewrite lookup_group_below.
  - cbn [lookup_group]. rewrite Nat.eqb_refl. cbn [option_map].
    rewrite (startswith_firstn _ _ Hs).
    rewrite string_of_list_ascii_of_string. reflexivity.
  - eapply Forall_impl; [exact F|]. cbv beta. intros a Ha Heq.
    rewrite Heq in Ha. exact (Hg Ha).
Qed.

Lemma found_keyword_head (g : nat) (w : string) (ws : list string)
    (rest : regex) (s : string) :
  found (Seq (Group g (alt_lits w ws)) rest) s = true ->
  exists w0, In w0 (w :: ws) /\ Py.contains w0 s = true.
Proof.
  unfold found, search.
  induction s as [|c s IH]; intros H.
  - cbn [list_ascii_of_string search_chars] in H.
    destruct (match_here (Seq (Group g (alt_lits w ws)) rest) [] false)
      as [[n m]|] eqn:E; [|discriminate].
    unfold match_here in E. cbn [run] in E.
    apply run_alt_lits in E as (w0 & Hin & Hs & _).
    exists w0. split; [exact Hin|].
    cbn [string_of_list_ascii] in Hs. cbn [Py.contains]. rewrite Hs.
    reflexivity.
  - cbn [list_ascii_of_string search_chars] in H.
    destruct (match_here (Seq (Group g (alt_lits w ws)) rest)
                (c :: list_ascii_of_string s) false) as [[n m]|] eqn:E.
    + unfold match_here in E. cbn [run] in E.
      apply run_alt_lits in E as (w0 & Hin & Hs & _).
      exists w0. split; [exact Hin|].
      cbn [string_of_list_ascii] in Hs.
      rewrite string_of_list_ascii_of_string in Hs.
      cbn [Py.contains]. rewrite Hs. reflexivity.
    + destruct (IH H) as (w0 & Hin & Hc).
      exists w0. split; [exact Hin|].
      cbn [Py.contains]. rewrite Hc. apply orb_true_r.
Qed.

Lemma finditer_nil (r : regex) (s : string) :
  found r s = false -> finditer r s = [].
Proof.
  intros H. apply found_false_iff in H. unfold findall in H.
  rewrite length_map in H. apply length_zero_iff_nil in H. exact H.
Qed.

Lemma finditer_In (r : regex) (s : string) (m : mobj) :
  In m (finditer r s) -> exists t b n, match_here r t b = Some (n, m).
Proof. apply finditer_chars_In. Qed.
End KeywordFacts.

(* ===================================================================== *)
(** ** Further properties of the documentation extractor *)
(* ===================================================================== *)

Section DocMore.
Import Re DocGenerator.

(** The defaults of the extraction: a source without the word "module"
    is named "Unknown"; without a [/**] comment it gets
    "No description available"; without the word "parameter" it has no
    parameters; a testbench without "// Test case" gives no examples; and
    the timing diagrams are always the one placeholder. *)
Theorem extract_defaults (self : t) :
  (Py.contains "module" (verilog_content self) = false ->
   name (extract_module_info self) = "Unknown")
  /\ (Py.contains "/**" (verilog_content self) = false ->
      description (extract_module_info self) = "No description available")
  /\ (Py.contains "parameter" (verilog_content self) = false ->
      parameters (extract_module_info self) = [])
  /\ (Py.contains "// Test case" (testbench_content self) = false ->
      examples (extract_module_info self) = [])
  /\ timing_diagrams (extract_module_info self) = [timing_diagram_placeholder].
Proof.
  assert (Hlit : forall w rest s,
             Py.contains w s = false -> found (Seq (Lit w) rest) s = false).
  { intros w rest s H. destruct (found (Seq (Lit w) rest) s) eqn:E;
      [|reflexivity].
    apply found_literal_head in E. congruence. }
  unfold extract_module_info.
  cbn [name description parameters examples timing_diagrams].
  split; [|split; [|split; [|split]]].
  - intros H.
    apply (Hlit "module" (Cat [Plus space; Group 1 (Plus word)])) in H.
    change (Seq (Lit "module") (Cat [Plus space; Group 1 (Plus word)]))
      with module_re in H.
    unfold found in H.
    destruct (search module_re (verilog_content self)); [discriminate|].
    reflexivity.
  - intros H.
    apply (Hlit "/**" (Cat [Group 1 (StarLazy dotall); Lit "*/"])) in H.
    change (Seq (Lit "/**") (Cat [Group 1 (StarLazy dotall); Lit "*/"]))
      with desc_re in H.
    unfold found in H.
    destruct (search desc_re (verilog_content self)); [discriminate|].
    reflexivity.
  - intros H.
    apply (Hlit "parameter"
             (Cat [Plus space; Group 1 (Plus word); Star space; Lit "=";
                   Star space; Group 2 (Plus (none_of ";")); Lit ";";
                   trailing_comment 3])) in H.
    apply finditer_nil in H.
    change (finditer param_re (verilog_content self) = []) in H.
    rewrite H. reflexivity.
  - intros H.
    apply (Hlit "// Test case"
             (Cat [StarLazy dotall; Chr (one "010");
                   Group 1 (StarLazy dotall); Lit "// End test case"])) in H.
    apply finditer_nil in H.
    change (finditer example_re (testbench_content self) = []) in H.
    rewrite H. reflexivity.
  - reflexivity.
Qed.

Lemma extract_defaults_witness :
  name (extract_module_info
          {| verilog_file := "empty.v"; testbench_file := "empty_tb.sv";
             verilog_content := ""; testbench_content := "" |})
  = "Unknown"
  /\ examples (extract_module_info
                 {| verilog_file := "empty.v"; testbench_file := "empty_tb.sv";
                    verilog_content := ""; testbench_content := "" |})
     = [].
Proof.
  destruct (extract_defaults
              {| verilog_file := "empty.v"; testbench_file := "empty_tb.sv";
                 verilog_content := ""; testbench_content := "" |})
    as (Hn & _ & _ & He & _).
  split; [apply Hn; reflexivity|apply He; reflexivity].
Defined.

(** Every extracted port carries one of the three direction keywords and
    every extracted signal is a [wire] or a [reg]; a width is never
    empty. *)
Theorem port_and_signal_kinds (self : t) :
  (forall p, In p (ports (extract_module_info self)) ->
             In (port_direction p) ["input"; "output"; "inout"]
             /\ port_width p <> "")
  /\ (forall g, In g (signals (extract_module_info self)) ->
                In (signal_type g) ["wire"; "reg"]
                /\ signal_width g <> "").
Proof.
  assert (Hw : forall m, group_or 2 m "1" <> "").
  { intros m. unfold group_or. destruct (group 2 m) as [[|c s0]|];
      discriminate. }
  unfold extract_module_info. cbn [ports signals]. split.
  - intros p Hp. apply in_map_iff in Hp as (m & <- & Hm).
    cbn [port_direction port_width]. split; [|apply Hw].
    apply finditer_In in Hm as (t0 & b & n & Hm).
    apply (keyword_group 0 "input" ["output"; "inout"]) in Hm
        as (w0 & Hin & Hg).
    + unfold group_str. rewrite Hg. exact Hin.
    + cbn. intros H. repeat (destruct H as [H|H]; [discriminate H|]).
      exact H.
  - intros g Hg. apply in_map_iff in Hg as (m & <- & Hm).
    cbn [signal_type signal_width]. split; [|apply Hw].
    apply finditer_In in Hm as (t0 & b & n & Hm).
    apply (keyword_group 0 "wire" ["reg"]) in Hm as (w0 & Hin & Hg).
    + unfold group_str. rewrite Hg. exact Hin.
    + cbn. intros H. repeat (destruct H as [H|H]; [discriminate H|]).
      exact H.
Qed.

(** A source in which none of the direction keywords occurs has no
    ports, and one with neither "wire" nor "reg" has no signals. *)
Theorem no_keyword_no_entry (self : t) :
  (Py.contains "input" (verilog_content self) = false ->
   Py.contains "output" (verilog_content self) = false ->
   Py.contains "inout" (verilog_content self) = false ->
   ports (extract_module_info self) = [])
  /\ (Py.contains "wire" (verilog_content self) = false ->
      Py.contains "reg" (verilog_content self) = false ->
      signals (extract_module_info self) = []).
Proof.
  unfold extract_module_info. cbn [ports signals]. split.
  - intros H1 H2 H3.
    destruct (found port_re (verilog_content self)) eqn:E.
    + apply (found_keyword_head 1 "input" ["output"; "inout"]) in E
          as (w0 & Hin & Hc).
      destruct Hin as [<-|[<-|[<-|[]]]]; congruence.
    + apply finditer_nil in E. rewrite E. reflexivity.
  - intros H1 H2.
    destruct (found signal_re (verilog_content self)) eqn:E.
    + apply (found_keyword_head 1 "wire" ["reg"]) in E as (w0 & Hin & Hc).
      destruct Hin as [<-|[<-|[]]]; congruence.
    + apply finditer_nil in E. rewrite E. reflexivity.
Qed.

Lemma no_keyword_no_entry_witness :
  ports (extract_module_info
           {| verilog_file := "m.v"; testbench_file := "m_tb.sv";
              verilog_content := "module m; endmodule";
              testbench_content := "" |})
  = [].
Proof.
  apply (no_keyword_no_entry
           {| verilog_file := "m.v"; testbench_file := "m_tb.sv";
              verilog_content := "module m; endmodule";
              testbench_content := "" |}); reflexivity.
Defined.

(** In the counter the output register is listed twice: as a port and,
    because [output reg] also matches the signal pattern, as a signal. *)
Example counter_port_is_signal :
  map port_name
      (ports (extract_module_info
                {| verilog_file := "c.v"; testbench_file := "c_tb.sv";
                   verilog_content := counter_source;
                   testbench_content := "" |}))
  = ["clk"; "rst_n"; "count"]
  /\ map signal_name
       (signals (extract_module_info
                   {| verilog_file := "c.v"; testbench_file := "c_tb.sv";
                      verilog_content := counter_source;
                      testbench_content := "" |}))
     = ["count"].
Proof. split; vm_compute; reflexivity. Qed.
End DocMore.

(* ===================================================================== *)
(** ** The stages of the orchestrator *)
(* ===================================================================== *)

Section StageFacts.
Import Sys VerilogAIAgent.








End StageFacts.

Section PipelineMore.
Import Sys VerilogAIAgent.

Variable generator_generate :
  string -> string -> option string -> bool -> M unit.
Variable markdown_markdown : string -> string.
Variable yaml_dump : DocGenerator.yaml -> string.

(** [generate_design] does not check what the generator wrote.  When the
    generator returns and the module file the agent expects,
    [<output_dir>/<module_name or 'design'>.v], is not there, the run
    stops in the optimisation stage: [process_design] raises
    [FileNotFoundError] for that path, logs the failure, and neither the
    verification nor the documentation stage is entered. *)
Theorem missing_module_file (self : t) (description : string)
    (module_name : option string) (w w1 : world) :
  generator_generate description (output_dir self) module_name true
    {| fs := fs w;
       log := log w ++ [(INFO, "Stage 1: Generating Verilog design...")] |}
  = (Ok tt, w1) ->
  fs w1 !! joinpath (output_dir self) (or_design module_name +:+ ".v") = None ->
  process_design generator_generate markdown_markdown yaml_dump self
    description module_name w
  = (Raise (FileNotFoundError
              (joinpath (output_dir self) (or_design module_name +:+ ".v"))),
     {| fs := fs w1;
        log := log w1
               ++ [(INFO, "Design generated: "
                          +:+ joinpath (output_dir self)
                                (or_design module_name +:+ ".v"));
                   (INFO, "Testbench generated: "
                          +:+ joinpath (output_dir self)
                                (or_design module_name +:+ "_tb.sv"));
                   (INFO, "Stage 2: Optimizing design...");
                   (ERROR, "Design processing failed: "
                           +:+ str (FileNotFoundError
                                      (joinpath (output_dir self)
                                         (or_design module_name +:+ ".v"))))] |}).
Proof.
  intros Hgen Hnone.
  unfold process_design, try_except, process_design_body, generate_design,
    bind, logger, ret.
  rewrite Hgen.
  unfold optimize_design, DesignOptimizer.init, bind, logger, read_text, raise.
  cbn [verilog testbench fs log]. rewrite Hnone. cbn [fs log].
  rewrite <- !app_assoc. reflexivity.
Qed.
End PipelineMore.

Section PipelineMoreWitness.
Import Sys VerilogAIAgent.

Lemma missing_module_file_witness :
  fst (process_design plan_named_generator (fun s => s) (fun _ => "")
         {| output_dir := "test_output" |} "a 4-bit counter" None empty_output)
  = Raise (FileNotFoundError "test_output/design.v").
Proof.
  rewrite (missing_module_file plan_named_generator (fun s => s) (fun _ => "")
             {| output_dir := "test_output" |} "a 4-bit counter" None
             empty_output
             (snd (plan_named_generator "a 4-bit counter" "test_output" None
                     true
                     {| fs := fs empty_output;
                        log := log empty_output
                               ++ [(INFO, "Stage 1: Generating Verilog design...")] |}))).
  - reflexivity.
  - vm_compute. reflexivity.
  - vm_compute. reflexivity.
Defined.
End PipelineMoreWitness.

(* ===================================================================== *)
(** ** The two front ends *)
(* ===================================================================== *)

Section FrontEnds.
Import Sys.

Variable generator_generate :
  string -> string -> option string -> bool -> M unit.
Variable markdown_markdown : string -> string.
Variable yaml_dump : DocGenerator.yaml -> string.

Lemma http_handler_500 {A : Type} (prefix : string) (body : M A)
    (w w' : world) (e : exn) :
  try_except body
    (fun e0 =>
       bind (logger ERROR (prefix +:+ str e0))
            (fun _ => raise (HTTPException 500 (str e0)))) w
  = (Raise e, w') ->
  exists detail, e = HTTPException 500 detail.
Proof.
  intros H. apply try_except_Raise in H as (e0 & w1 & _ & H).
  apply handler_keeps_files in H as [-> _]. eauto.
Qed.

(** Whatever goes wrong in a request handler of [mcp_verilog_agent], the
    client sees an [HTTPException] with status 500: no other exception
    and no other status leaves the five handlers. *)
Theorem handlers_raise_500 (w w' : world) (e : exn) :
  (forall description module_name,
      McpVerilogAgent.generate_design generator_generate markdown_markdown
        yaml_dump description module_name w = (Raise e, w') ->
      exists detail, e = HTTPException 500 detail)
  /\ (forall design_id,
         McpVerilogAgent.get_design design_id w = (Raise e, w') ->
         exists detail, e = HTTPException 500 detail)
  /\ (forall verilog_code,
         McpVerilogAgent.optimize_design verilog_code w = (Raise e, w') ->
         exists detail, e = HTTPException 500 detail)
  /\ (forall verilog_code testbench,
         McpVerilogAgent.verify_design verilog_code testbench w
         = (Raise e, w') ->
         exists detail, e = HTTPException 500 detail)
  /\ (forall verilog_code testbench,
         McpVerilogAgent.generate_documentation markdown_markdown yaml_dump
           verilog_code testbench w = (Raise e, w') ->
         exists detail, e = HTTPException 500 detail).
Proof.
  repeat split; intros; eapply http_handler_500; eassumption.
Qed.



Lemma reraise_or_wrap {A : Type} (prefix : string) (body : M A) (w : world) :
  match McpServer.log_and_reraise prefix body w with
  | (Ok a, w') =>
      try_except body
        (fun e =>
           bind (logger ERROR (prefix +:+ str e))
                (fun _ => raise (HTTPException 500 (str e)))) w
      = (Ok a, w')
  | (Raise e, w') =>
      try_except body
        (fun e0 =>
           bind (logger ERROR (prefix +:+ str e0))
                (fun _ => raise (HTTPException 500 (str e0)))) w
      = (Raise (HTTPException 500 (str e)), w')
  end.
Proof.
  unfold McpServer.log_and_reraise, try_except, bind, logger, raise.
  destruct (body w) as [[a|e] w1]; reflexivity.
Qed.

(** The tools of [mcp_server] and the handlers of [mcp_verilog_agent] do
    the same work: where a tool returns, the handler returns the same
    answer in the same world; where a tool raises [e], the handler raises
    [HTTPException(500, str(e))], again in the same world. *)
Theorem tools_and_handlers_agree (w : world) :
  (forall verilog_code,
      match McpServer.optimize_design verilog_code w with
      | (Ok r, w') =>
          McpVerilogAgent.optimize_design verilog_code w = (Ok r, w')
      | (Raise e, w') =>
          McpVerilogAgent.optimize_design verilog_code w
          = (Raise (HTTPException 500 (str e)), w')
      end)
  /\ (forall verilog_code testbench,
         match McpServer.verify_design verilog_code testbench w with
         | (Ok r, w') =>
             McpVerilogAgent.verify_design verilog_code testbench w
             = (Ok r, w')
         | (Raise e, w') =>
             McpVerilogAgent.verify_design verilog_code testbench w
             = (Raise (HTTPException 500 (str e)), w')
         end)
  /\ (forall verilog_code testbench,
         match McpServer.generate_documentation markdown_markdown yaml_dump
                 verilog_code testbench w with
         | (Ok r, w') =>
             McpVerilogAgent.generate_documentation markdown_markdown
               yaml_dump verilog_code testbench w
             = (Ok r, w')
         | (Raise e, w') =>
             McpVerilogAgent.generate_documentation markdown_markdown
               yaml_dump verilog_code testbench w
             = (Raise (HTTPException 500 (str e)), w')
         end)
  /\ (forall description module_name,
         match McpServer.generate_design generator_generate
                 markdown_markdown yaml_dump description module_name w with
         | (Ok r, w') =>
             McpVerilogAgent.generate_design generator_generate
               markdown_markdown yaml_dump description module_name w
             = (Ok r, w')
         | (Raise e, w') =>
             McpVerilogAgent.generate_design generator_generate
               markdown_markdown yaml_dump description module_name w
             = (Raise (HTTPException 500 (str e)), w')
         end).
Proof.
  split; [|split; [|split]]; intros.
  - apply (reraise_or_wrap "Design optimization failed: ").
  - apply (reraise_or_wrap "Design verification failed: ").
  - apply (reraise_or_wrap "Documentation generation failed: ").
  - apply (reraise_or_wrap "Design generation failed: ").
Qed.
End FrontEnds.

(* ===================================================================== *)
(** ** Paths and the listing of a design directory *)
(* ===================================================================== *)

Section PathFacts.
Import Sys.








End PathFacts.

Section ListingFacts.
Import Sys.





End ListingFacts.

Section GetDesign.
Import Sys.





End GetDesign.

Section DocumentStage.
Import Sys VerilogAIAgent.

Variable markdown_markdown : string -> string.
Variable yaml_dump : DocGenerator.yaml -> string.


End DocumentStage.

Section MoreWitnesses.
Import Sys VerilogAIAgent.


Lemma optimize_design_success_cleans_witness :
  fs (snd (McpVerilogAgent.optimize_design counter_source
             {| fs := {[ "mcp_output" := Dir ]}; log := [] |}))
    !! "mcp_output/temp.v" = None.
Proof.
  destruct (McpVerilogAgent.optimize_design counter_source
              {| fs := {[ "mcp_output" := Dir ]}; log := [] |})
    as [[r|e] w'] eqn:E.
  - exact (optimize_design_success_cleans _ _ _ _ E).
  - exfalso. vm_compute in E. discriminate E.
Defined.

Lemma verify_design_success_cleans_witness :
  fs (snd (McpVerilogAgent.verify_design counter_source counter_testbench
             {| fs := {[ "mcp_output" := Dir ]}; log := [] |}))
    !! "mcp_output/temp.v" = None
  /\ fs (snd (McpVerilogAgent.verify_design counter_source counter_testbench
                {| fs := {[ "mcp_output" := Dir ]}; log := [] |}))
       !! "mcp_output/temp_tb.sv" = None.
Proof.
  destruct (McpVerilogAgent.verify_design counter_source counter_testbench
              {| fs := {[ "mcp_output" := Dir ]}; log := [] |})
    as [[r|e] w'] eqn:E.
  - exact (verify_design_success_cleans _ _ _ _ _ E).
  - exfalso. vm_compute in E. discriminate E.
Defined.

Lemma optimize_design_failure_leaves_temp_witness :
  fs (snd (McpVerilogAgent.optimize_design counter_source
             blocked_optimized_file))
    !! "mcp_output/temp.v" = Some (File counter_source).
Proof.
  destruct (McpVerilogAgent.optimize_design counter_source
              blocked_optimized_file) as [[r|e] w'] eqn:E.
  - exfalso. vm_compute in E. discriminate E.
  - apply (optimize_design_failure_leaves_temp counter_source
             blocked_optimized_file w' e).
    + vm_compute. reflexivity.
    + vm_compute. discriminate.
    + exact E.
Defined.

Lemma port_and_signal_kinds_witness :
  In "output" ["input"; "output"; "inout"]
  /\ In "reg" ["wire"; "reg"].
Proof.
  destruct (port_and_signal_kinds
              {| DocGenerator.verilog_file := "q.v";
                 DocGenerator.testbench_file := "q_tb.sv";
                 DocGenerator.verilog_content := "output reg q;";
                 DocGenerator.testbench_content := "" |}) as [Hp Hs].
  split.
  - apply (Hp {| DocGenerator.port_direction := "output";
                 DocGenerator.port_width := "1";
                 DocGenerator.port_name := "q";
                 DocGenerator.port_description := "No description" |}).
    vm_compute. left. reflexivity.
  - apply (Hs {| DocGenerator.signal_type := "reg";
                 DocGenerator.signal_width := "1";
                 DocGenerator.signal_name := "q";
                 DocGenerator.signal_description := "No description" |}).
    vm_compute. left. reflexivity.
Defined.
End MoreWitnesses.
